(** * Chain management of the Copilot plugin: a shallow embedding

    The development follows [ChainManager] (the chain-management class) and
    the helpers of [utils.ts] it relies on.  Stateful code is written in a
    small state-and-exception monad over a record [World] that gathers the
    static fields of [ChainManager], the settings it reads, and the state of
    the collaborators it calls (model registry, memory store, embeddings
    provider, document index).  Collaborators whose code is not part of the
    examined files are taken as parameters (record [Collaborators]). *)

From Stdlib Require Import String Ascii List Bool Arith Lia QArith.
Import ListNotations.
Local Close Scope Q_scope.
Local Open Scope string_scope.
Local Open Scope list_scope.

(** ** Data model *)

(** [ChainType] as [setChain] and [getChainRunner] switch on it. *)
Inductive ChainType : Type :=
| LLM_CHAIN
| VAULT_QA_CHAIN
| COPILOT_PLUS_CHAIN.

(** The value that reaches a parameter typed [ChainType] at run time.
    [validateChainType] tests it against [undefined] and [null]; the
    [default] branches of the two switches receive whatever is strictly
    equal to none of the three members.  [CT_other v] stands for such a
    value, [v] being its rendering in a template string. *)
Inductive ChainTypeArg : Type :=
| CT_undefined
| CT_null
| CT (c : ChainType)
| CT_other (v : string).

(** Modelled from the spec: the constants module is not among the examined
    files; section 3 gives the sender of a [ChatMessage] as the enumeration
    {USER, AI}.  [USER_SENDER] and [AI_SENDER] are its two members. *)
Inductive Sender : Type :=
| USER_SENDER
| AI_SENDER.

Record ChatMessage : Type := mkChatMessage {
  sender : Sender;
  message : string
}.

(** Modelled from the spec: [CustomModel] is declared in the parameter
    module, which is not among the examined files; section 3 lists a name, a
    provider, an optional endpoint override and capability flags. *)
Record CustomModel : Type := mkCustomModel {
  name : string;
  provider : string;
  baseUrl : option string;
  capabilities : list string
}.

(** A chat-model handle, as far as [runChain] looks into it: the two
    optional properties [modelName] and [model]. *)
Record ChatModel : Type := mkChatModel {
  modelName : option string;
  model : option string
}.

(** Opaque handles of collaborators. *)
Inductive EmbeddingsAPI : Type := EmbeddingsHandle (id : nat).
Inductive Db : Type := IndexHandle (id : nat).
Inductive AbortController : Type := AbortHandle (id : nat).
Inductive Vault : Type := TheVault.
Inductive BrevilabsClient : Type := TheBrevilabsClient.

(** The memory manager is a singleton and [getMemory] hands out a reference
    to its one memory object.  Pipelines keep that reference; the contents
    live in the world (field [memory]). *)
Inductive MemoryRef : Type := TheMemory.

(** Prompt templates.  A chat prompt template holds a flat list of message
    templates; the text of a message template is an f-string template. *)
Inductive MessageTemplate : Type :=
| SystemMessagePromptTemplate (template : string)
| MessagesPlaceholder (variable : string)
| HumanMessagePromptTemplate (template : string)
| AIMessagePromptTemplate (template : string).

Record ChatPromptTemplate : Type := mkChatPromptTemplate {
  promptMessages : list MessageTemplate
}.

(** Roles of the messages of a prompt. *)
Inductive Role : Type := SystemRole | HumanRole | AssistantRole | HistorySlot.

Definition roleOf (m : MessageTemplate) : Role :=
  match m with
  | SystemMessagePromptTemplate _ => SystemRole
  | MessagesPlaceholder _ => HistorySlot
  | HumanMessagePromptTemplate _ => HumanRole
  | AIMessagePromptTemplate _ => AssistantRole
  end.

Definition messageRoles (p : ChatPromptTemplate) : list Role :=
  map roleOf (promptMessages p).



Record RetrievalOptions : Type := mkRetrievalOptions {
  minSimilarityScore : Q;
  maxK : nat;
  salientTerms : list string
}.

Record HybridRetriever : Type := newHybridRetriever {
  hr_db : Db;
  hr_vault : Vault;
  hr_llm : ChatModel;
  hr_embeddings : EmbeddingsAPI;
  hr_client : BrevilabsClient;
  hr_options : RetrievalOptions;
  hr_debug : bool
}.

(** Modelled from the spec: the chain factory is not among the examined
    files; section 4.4 describes it as a pure factory without hidden state.
    A pipeline is the record of the arguments it was built from. *)
Record LLMChain : Type := createNewLLMChain {
  llm : ChatModel;
  llm_memory : MemoryRef;
  llm_prompt : ChatPromptTemplate;
  llm_abortController : option AbortController
}.

Record RetrievalChain : Type := createConversationalRetrievalChain {
  rc_llm : ChatModel;
  rc_retriever : HybridRetriever;
  rc_systemMessage : string;
  rc_debug : bool
}.

Record SetChainOptions : Type := mkSetChainOptions {
  opt_prompt : option ChatPromptTemplate;
  opt_abortController : option AbortController;
  opt_refreshIndex : option bool
}.

Definition noOptions : SetChainOptions :=
  {| opt_prompt := None; opt_abortController := None; opt_refreshIndex := None |}.

Record Settings : Type := mkSettings {
  activeModels : list CustomModel;
  maxSourceChunks : nat;
  debug : bool
}.

Record Error : Type := newError { errorMessage : string }.

(** How a call ends. *)
Inductive Completion (A : Type) : Type :=
| Normal (a : A)
| Throw (e : Error).
Arguments Normal {A} a.
Arguments Throw {A} e.

(** Arguments of a console call. *)
Inductive LogArg : Type :=
| LStr (s : string)
| LChainType (c : ChainTypeArg)
| LError (e : Error)
| LMessage (m : ChatMessage).

(** What the manager does to the outside, in order. *)
Inductive Effect : Type :=
| ConsoleError (args : list LogArg)
| ConsoleWarn (args : list LogArg)
| ConsoleLog (args : list LogArg)
| NoticeShown (msg : string)
| ChainAssigned (p : LLMChain)
| RetrievalChainAssigned (p : RetrievalChain)
| ChainTypePersisted (c : ChainType).

(** The world: static fields of [ChainManager], settings, and the state of
    the collaborators.  [VS] is the state of the vector store manager. *)
Record World {VS : Type} : Type := mkWorld {
  chain : option LLMChain;
  retrievalChain : option RetrievalChain;
  chainType : ChainTypeArg;
  modelKey : string;
  settings : Settings;
  systemPrompt : string;
  chatModel : ChatModel;
  chatPrompt : ChatPromptTemplate;
  memory : list (string * string);
  embeddingsAPI : option EmbeddingsAPI;
  vectorStore : VS;
  vault : Vault;
  brevilabsClient : BrevilabsClient;
  effects : list Effect
}.
Arguments World : clear implicits.
Arguments mkWorld {VS}.

(** Collaborators the manager calls and whose code is elsewhere. *)
Record Collaborators {VS : Type} : Type := mkCollaborators {
  (** Provider model registry: is this handle usable? *)
  validateChatModel : ChatModel -> bool;
  (** Provider model registry: install the handle for a model; the second
      argument is the handle currently installed, the result the handle
      installed afterwards and whether the call raised. *)
  setChatModel : CustomModel -> ChatModel -> Completion unit * ChatModel;
  (** First entry of the table of built-in chat models. *)
  BUILTIN_CHAT_MODELS_0 : CustomModel;
  (** Document index accessor. *)
  getDb : VS -> option Db;
  initializeDB : VS -> Completion (option Db) * VS;
  indexVaultToVectorStore : VS -> Completion unit * VS
}.
Arguments Collaborators : clear implicits.

(** ** Construction of prompts *)

(** The f-string parser of the prompt library.  Outside a variable, [{{]
    and [}}] are escapes, a single [{] opens a variable that runs up to the
    next [}], and a single [}] is an error; so is a variable that is never
    closed.  [templateError] is the error the parser raises for a text, if
    any; [insideVariable] is the parser after an opening brace. *)
Definition unclosedBrace : Error := newError "Unclosed '{' in template.".
Definition singleBrace : Error := newError "Single '}' in template.".

Fixpoint templateError (template : string) : option Error :=
  match template with
  | EmptyString => None
  | String c rest =>
      if Ascii.eqb c "{"%char then
        match rest with
        | EmptyString => Some unclosedBrace
        | String c' rest' =>
            if Ascii.eqb c' "{"%char then templateError rest'
            else insideVariable rest
        end
      else if Ascii.eqb c "}"%char then
        match rest with
        | EmptyString => Some singleBrace
        | String c' rest' =>
            if Ascii.eqb c' "}"%char then templateError rest'
            else Some singleBrace
        end
      else templateError rest
  end
with insideVariable (template : string) : option Error :=
  match template with
  | EmptyString => Some unclosedBrace
  | String c rest =>
      if Ascii.eqb c "}"%char then templateError rest
      else insideVariable rest
  end.

(** [HumanMessagePromptTemplate.fromTemplate(template)]. *)
Definition HumanMessagePromptTemplate_fromTemplate (template : string)
  : Completion MessageTemplate :=
  match templateError template with
  | Some e => Throw e
  | None => Normal (HumanMessagePromptTemplate template)
  end.

(** What [ChatPromptTemplate.fromMessages] accepts: message templates
    already built, [role, text] tuples (the text is parsed as a template of
    that role) and other chat prompt templates (whose messages are spliced
    in). *)
Inductive PromptInput : Type :=
| FromTemplate (m : MessageTemplate)
| FromTuple (role : Sender) (text : string)
| FromPrompt (p : ChatPromptTemplate).

Definition coerceMessage (i : PromptInput) : Completion (list MessageTemplate) :=
  match i with
  | FromTemplate m => Normal [m]
  | FromTuple role text =>
      match templateError text with
      | Some e => Throw e
      | None =>
          Normal [match role with
                  | USER_SENDER => HumanMessagePromptTemplate text
                  | AI_SENDER => AIMessagePromptTemplate text
                  end]
      end
  | FromPrompt p => Normal (promptMessages p)
  end.

Fixpoint coerceMessages (inputs : list PromptInput) : Completion (list MessageTemplate) :=
  match inputs with
  | [] => Normal []
  | i :: rest =>
      match coerceMessage i with
      | Throw e => Throw e
      | Normal first =>
          match coerceMessages rest with
          | Throw e => Throw e
          | Normal others => Normal (first ++ others)
          end
      end
  end.

Definition fromMessages (inputs : list PromptInput) : Completion ChatPromptTemplate :=
  match coerceMessages inputs with
  | Throw e => Throw e
  | Normal messages => Normal {| promptMessages := messages |}
  end.

(** ** JavaScript helpers *)

(** [s.split("|")]. *)
Fixpoint split_bar (s : string) : list string :=
  match s with
  | EmptyString => [EmptyString]
  | String c rest =>
      if Ascii.eqb c "|"%char then EmptyString :: split_bar rest
      else match split_bar rest with
           | h :: t => String c h :: t
           | [] => [String c EmptyString]
           end
  end.

(** [a === b] where [b] may be [undefined]. *)
Definition strict_eq (a : string) (b : option string) : bool :=
  match b with
  | Some b' => String.eqb a b'
  | None => false
  end.

(** Truthiness of an optional string property. *)
Definition truthy (s : option string) : bool :=
  match s with
  | Some EmptyString => false
  | Some _ => true
  | None => false
  end.

(** [a || b || ""] on optional string properties. *)
Definition or_else_empty (a b : option string) : string :=
  match a with
  | Some (String c r) => String c r
  | _ => match b with
         | Some (String c r) => String c r
         | _ => EmptyString
         end
  end.

(** [s.startsWith(p)]. *)
Definition startsWith (s p : string) : bool := String.prefix p s.

(** ** Model lookup *)

(** The predicate both lookups hand to [Array.prototype.find]. *)
Definition key_matches (modelKey : string) (m : CustomModel) : bool :=
  let parts := split_bar modelKey in
  let name' := nth_error parts 0 in
  let provider' := nth_error parts 1 in
  strict_eq (name m) name' && strict_eq (provider m) provider'.

(** [ChainManager.findCustomModel] (private method): the first match or
    [undefined]. *)
Definition findCustomModel (modelKey : string) (models : list CustomModel)
  : option CustomModel :=
  List.find (key_matches modelKey) models.

(** [findCustomModel] of [utils.ts]: the first match, or an exception when
    there is none. *)
Definition utils_findCustomModel (modelKey : string) (models : list CustomModel)
  : Completion CustomModel :=
  match List.find (key_matches modelKey) models with
  | Some m => Normal m
  | None => Throw (newError ("No model configuration found for: " ++ modelKey)%string)
  end.

(** [getModelNameFromKey] of [utils.ts]. *)
Definition getModelNameFromKey (modelKey : string) : string :=
  match split_bar modelKey with
  | h :: _ => h
  | [] => EmptyString
  end.

(** ** The monad of manager code *)

Section Manager.

Context {VS : Type}.
Variable X : Collaborators VS.

Definition M (A : Type) : Type := World VS -> Completion A * World VS.

Definition ret {A : Type} (a : A) : M A := fun w => (Normal a, w).

Definition bind {A B : Type} (m : M A) (k : A -> M B) : M B :=
  fun w =>
    match m w with
    | (Normal a, w') => k a w'
    | (Throw e, w') => (Throw e, w')
    end.

Definition throw {A : Type} (e : Error) : M A := fun w => (Throw e, w).

(** [try { body } catch (error) { handler }]. *)
Definition try_catch (body : M unit) (handler : Error -> M unit) : M unit :=
  fun w =>
    match body w with
    | (Normal a, w') => (Normal a, w')
    | (Throw e, w') => handler e w'
    end.

(** A value or an exception that is already there. *)
Definition lift {A : Type} (c : Completion A) : M A := fun w => (c, w).

(** A call of an [async] function runs the body up to its first [await]
    that suspends it.  Then the call is either over, or suspended with the
    rest of the body still to run; the rest runs when the event loop
    resumes it, after the caller has gone on.  Further suspensions inside
    the rest are not told apart. *)
Inductive Started (A : Type) : Type :=
| Settled (r : Completion A)
| Suspended (rest : M A).
Arguments Settled {A} r.
Arguments Suspended {A} rest.

Definition Async (A : Type) : Type := World VS -> Started A * World VS.

(** What is left of a started call. *)
Definition resume {A : Type} (s : Started A) : M A :=
  match s with
  | Settled r => lift r
  | Suspended rest => rest
  end.


(** A call whose promise is dropped: the caller goes on as soon as the
    call is over or suspended; a rejection reaches nobody. *)
Definition not_awaited {A : Type} (call : Async A) : M unit :=
  fun w => (Normal tt, snd (call w)).

Notation "x <- m ;; k" := (bind m (fun x => k))
  (at level 61, m at next level, right associativity).
Notation "m ;;; k" := (bind m (fun _ => k))
  (at level 61, right associativity).

(** *** Writes *)

Definition emit (e : Effect) (w : World VS) : World VS :=
  mkWorld (chain w) (retrievalChain w) (chainType w) (modelKey w) (settings w)
    (systemPrompt w) (chatModel w) (chatPrompt w) (memory w) (embeddingsAPI w)
    (vectorStore w) (vault w) (brevilabsClient w) (effects w ++ [e]).

Definition with_chain (p : option LLMChain) (w : World VS) : World VS :=
  mkWorld p (retrievalChain w) (chainType w) (modelKey w) (settings w)
    (systemPrompt w) (chatModel w) (chatPrompt w) (memory w) (embeddingsAPI w)
    (vectorStore w) (vault w) (brevilabsClient w) (effects w).

Definition with_retrievalChain (p : option RetrievalChain) (w : World VS) : World VS :=
  mkWorld (chain w) p (chainType w) (modelKey w) (settings w)
    (systemPrompt w) (chatModel w) (chatPrompt w) (memory w) (embeddingsAPI w)
    (vectorStore w) (vault w) (brevilabsClient w) (effects w).

Definition with_chainType (c : ChainTypeArg) (w : World VS) : World VS :=
  mkWorld (chain w) (retrievalChain w) c (modelKey w) (settings w)
    (systemPrompt w) (chatModel w) (chatPrompt w) (memory w) (embeddingsAPI w)
    (vectorStore w) (vault w) (brevilabsClient w) (effects w).

Definition with_chatModel (m : ChatModel) (w : World VS) : World VS :=
  mkWorld (chain w) (retrievalChain w) (chainType w) (modelKey w) (settings w)
    (systemPrompt w) m (chatPrompt w) (memory w) (embeddingsAPI w)
    (vectorStore w) (vault w) (brevilabsClient w) (effects w).

Definition with_memory (m : list (string * string)) (w : World VS) : World VS :=
  mkWorld (chain w) (retrievalChain w) (chainType w) (modelKey w) (settings w)
    (systemPrompt w) (chatModel w) (chatPrompt w) m (embeddingsAPI w)
    (vectorStore w) (vault w) (brevilabsClient w) (effects w).

Definition with_vectorStore (v : VS) (w : World VS) : World VS :=
  mkWorld (chain w) (retrievalChain w) (chainType w) (modelKey w) (settings w)
    (systemPrompt w) (chatModel w) (chatPrompt w) (memory w) (embeddingsAPI w)
    v (vault w) (brevilabsClient w) (effects w).

(** *** Primitive actions *)

Definition do_emit (e : Effect) : M unit := fun w => (Normal tt, emit e w).
Definition console_error (args : list LogArg) : M unit := do_emit (ConsoleError args).
Definition console_warn (args : list LogArg) : M unit := do_emit (ConsoleWarn args).
Definition console_log (args : list LogArg) : M unit := do_emit (ConsoleLog args).
Definition newNotice (msg : string) : M unit := do_emit (NoticeShown msg).

Definition read {A : Type} (f : World VS -> A) : M A := fun w => (Normal (f w), w).

(** Settings provider. *)
Definition getChainType : M ChainTypeArg := read chainType.
Definition getModelKey : M string := read modelKey.
Definition getSettings : M Settings := read settings.
Definition getSystemPrompt : M string := read systemPrompt.
Definition setChainType (c : ChainType) : M unit :=
  fun w => (Normal tt, emit (ChainTypePersisted c) (with_chainType (CT c) w)).

(** Provider model registry. *)
Definition getChatModel : M ChatModel := read chatModel.
Definition chatModelManager_setChatModel (m : CustomModel) : M unit :=
  fun w =>
    let (r, h) := setChatModel X m (chatModel w) in
    (r, with_chatModel h w).

(** Prompt builder. *)
Definition getChatPrompt : M ChatPromptTemplate := read chatPrompt.

(** Modelled from the spec: the memory manager is not among the examined
    files; section 2 describes the memory store as ordered input/output
    pairs that can be cleared and appended to. *)
Definition getMemory : M MemoryRef := ret TheMemory.
Definition clearChatMemory : M unit :=
  fun w => (Normal tt, with_memory [] w).
Definition saveContext (_ : MemoryRef) (input output : string) : M unit :=
  fun w => (Normal tt, with_memory (memory w ++ [(input, output)]) w).

(** Embeddings provider and document index accessor. *)
Definition getEmbeddingsAPI : M (option EmbeddingsAPI) := read embeddingsAPI.
Definition vectorStoreManager_getDb : M (option Db) :=
  read (fun w => getDb X (vectorStore w)).
Definition vectorStoreManager_initializeDB : M (option Db) :=
  fun w =>
    let (r, v) := initializeDB X (vectorStore w) in
    (r, with_vectorStore v w).
Definition vectorStoreManager_indexVaultToVectorStore : M unit :=
  fun w =>
    let (r, v) := indexVaultToVectorStore X (vectorStore w) in
    (r, with_vectorStore v w).

(** Static fields of [ChainManager]. *)
Definition assign_chain (p : LLMChain) : M unit :=
  fun w => (Normal tt, emit (ChainAssigned p) (with_chain (Some p) w)).
Definition assign_retrievalChain (p : RetrievalChain) : M unit :=
  fun w => (Normal tt, emit (RetrievalChainAssigned p) (with_retrievalChain (Some p) w)).

Definition getChain (w : World VS) : option LLMChain := chain w.
Definition getRetrievalChain (w : World VS) : option RetrievalChain := retrievalChain w.

(** ** [ChainManager] *)

(** Rendering of a chain type value inside a template string.  The strings
    of the three members are those [stringToChainType] of [utils.ts] pairs
    with them. *)
Definition templateString (c : ChainTypeArg) : string :=
  match c with
  | CT_undefined => "undefined"
  | CT_null => "null"
  | CT LLM_CHAIN => "llm_chain"
  | CT VAULT_QA_CHAIN => "vault_qa"
  | CT COPILOT_PLUS_CHAIN => "copilot_plus"
  | CT_other v => v
  end.

Definition validateChainType (chainType : ChainTypeArg) : M unit :=
  match chainType with
  | CT_undefined | CT_null => throw (newError "No chain type set")
  | _ => ret tt
  end.

Definition chatModelErrorMsg : string :=
  "Chat model is not initialized properly, check your API key in Copilot setting and make sure you have API access.".

(** The private method [validateChatModel] of [ChainManager]. *)
Definition ChainManager_validateChatModel : M unit :=
  chatModel <- getChatModel ;;
  if negb (validateChatModel X chatModel) then
    newNotice chatModelErrorMsg ;;;
    throw (newError chatModelErrorMsg)
  else ret tt.

(** [isLLMChain], [isRetrievalQAChain] and [isSupportedChain] of
    [utils.ts] look at [chain.last.bound].  In a plain pipeline that object
    is the chat model; a chat model has no [retriever] property. *)
Definition isLLMChain (c : LLMChain) : bool :=
  truthy (modelName (llm c)) || truthy (model (llm c)).

Definition isRetrievalQAChain (c : LLMChain) : bool := false.

Definition isSupportedChain (c : LLMChain) : bool :=
  isLLMChain c || isRetrievalQAChain c.

Definition embeddingsErrorMsg : string :=
  "Error getting embeddings API. Please check your settings.".
Definition databaseErrorMsg : string :=
  "Database failed to initialize. Please check your settings.".

Definition initializeQAChain (options : SetChainOptions) : M (EmbeddingsAPI * Db) :=
  embeddingsAPI <- getEmbeddingsAPI ;;
  match embeddingsAPI with
  | None => throw (newError embeddingsErrorMsg)
  | Some embeddingsAPI =>
      db <- vectorStoreManager_getDb ;;
      db <- match db with
            | Some db => ret db
            | None =>
                console_warn [LStr "Copilot index is not loaded. Reinitializing..."] ;;;
                db <- vectorStoreManager_initializeDB ;;
                match db with
                | Some db => ret db
                | None => throw (newError databaseErrorMsg)
                end
            end ;;
      match opt_refreshIndex options with
      | Some true => vectorStoreManager_indexVaultToVectorStore
      | _ => ret tt
      end ;;;
      ret (embeddingsAPI, db)
  end.

(** [options.prompt || chatPrompt]. *)
Definition promptOr (options : SetChainOptions) (chatPrompt : ChatPromptTemplate)
  : ChatPromptTemplate :=
  match opt_prompt options with
  | Some p => p
  | None => chatPrompt
  end.

Definition setChain (chainType : ChainTypeArg) (options : SetChainOptions) : M unit :=
  current <- getChatModel ;;
  if negb (validateChatModel X current) then
    console_error [LStr "setChain failed: No chat model set."] ;;;
    ret tt
  else
    validateChainType chainType ;;;
    chatModel <- getChatModel ;;
    memory <- getMemory ;;
    chatPrompt <- getChatPrompt ;;
    match chainType with
    | CT LLM_CHAIN =>
        assign_chain
          (createNewLLMChain chatModel memory (promptOr options chatPrompt)
             (opt_abortController options)) ;;;
        setChainType LLM_CHAIN
    | CT VAULT_QA_CHAIN =>
        r <- initializeQAChain options ;;
        let (embeddingsAPI, db) := r in
        vault <- read vault ;;
        client <- read brevilabsClient ;;
        settings <- getSettings ;;
        let retriever :=
          newHybridRetriever db vault chatModel embeddingsAPI client
            {| minSimilarityScore := (1 # 100)%Q;
               maxK := maxSourceChunks settings;
               salientTerms := [] |}
            (debug settings) in
        systemMessage <- getSystemPrompt ;;
        assign_retrievalChain
          (createConversationalRetrievalChain chatModel retriever systemMessage
             (debug settings)) ;;;
        setChainType VAULT_QA_CHAIN ;;;
        if debug settings then
          console_log [LStr "New Vault QA chain with hybrid retriever created for entire vault"] ;;;
          console_log [LStr "Set chain:"; LChainType (CT VAULT_QA_CHAIN)]
        else ret tt
    | CT COPILOT_PLUS_CHAIN =>
        initializeQAChain options ;;;
        assign_chain
          (createNewLLMChain chatModel memory (promptOr options chatPrompt)
             (opt_abortController options)) ;;;
        setChainType COPILOT_PLUS_CHAIN
    | _ => validateChainType chainType
    end.

(** *** Calls that are not awaited

    [initializeQAChain] and [setChain] above are the two methods as an
    awaiting caller sees them, from the call to the settled promise.  The
    callers inside [ChainManager] drop the promise of [setChain]; for them
    the same two bodies are cut at their first suspension.  The vector
    store manager is asynchronous: what [initializeDB] and
    [indexVaultToVectorStore] do to its state is there when their promise
    settles, that is, in the rest of the call. *)

Definition initializeQAChain_call (options : SetChainOptions)
  : Async (EmbeddingsAPI * Db) :=
  fun w =>
    match embeddingsAPI w with
    | None => (Settled (Throw (newError embeddingsErrorMsg)), w)
    | Some embeddingsAPI =>
        match getDb X (vectorStore w) with
        | Some db =>
            match opt_refreshIndex options with
            | Some true =>
                (Suspended
                   (vectorStoreManager_indexVaultToVectorStore ;;;
                    ret (embeddingsAPI, db)),
                 w)
            | _ => (Settled (Normal (embeddingsAPI, db)), w)
            end
        | None =>
            (Suspended
               (db <- vectorStoreManager_initializeDB ;;
                match db with
                | Some db =>
                    match opt_refreshIndex options with
                    | Some true => vectorStoreManager_indexVaultToVectorStore
                    | _ => ret tt
                    end ;;;
                    ret (embeddingsAPI, db)
                | None => throw (newError databaseErrorMsg)
                end),
             emit (ConsoleWarn [LStr "Copilot index is not loaded. Reinitializing..."]) w)
        end
    end.

(** The vault QA branch of [setChain] after its [await]; [chatModel] was
    read before. *)
Definition finishVaultQA (chatModel : ChatModel) (r : EmbeddingsAPI * Db) : M unit :=
  let (embeddingsAPI, db) := r in
  vault <- read vault ;;
  client <- read brevilabsClient ;;
  settings <- getSettings ;;
  let retriever :=
    newHybridRetriever db vault chatModel embeddingsAPI client
      {| minSimilarityScore := (1 # 100)%Q;
         maxK := maxSourceChunks settings;
         salientTerms := [] |}
      (debug settings) in
  systemMessage <- getSystemPrompt ;;
  assign_retrievalChain
    (createConversationalRetrievalChain chatModel retriever systemMessage
       (debug settings)) ;;;
  setChainType VAULT_QA_CHAIN ;;;
  if debug settings then
    console_log [LStr "New Vault QA chain with hybrid retriever created for entire vault"] ;;;
    console_log [LStr "Set chain:"; LChainType (CT VAULT_QA_CHAIN)]
  else ret tt.

(** The agentic branch of [setChain] after its [await]; the chat model, the
    memory and the prompt were read before. *)
Definition finishCopilotPlus (chatModel : ChatModel) (memory : MemoryRef)
  (chatPrompt : ChatPromptTemplate) (options : SetChainOptions) : M unit :=
  assign_chain
    (createNewLLMChain chatModel memory (promptOr options chatPrompt)
       (opt_abortController options)) ;;;
  setChainType COPILOT_PLUS_CHAIN.

(** [setChain] reaches an [await] in its vault QA and agentic branches
    only, at [await this.initializeQAChain(options)]; there the call is
    suspended whatever has become of the awaited promise.  On every other
    path the call is over when it returns. *)
Definition setChain_call (chainType : ChainTypeArg) (options : SetChainOptions)
  : Async unit :=
  fun w =>
    if negb (validateChatModel X (chatModel w)) then
      let (r, w') := setChain chainType options w in (Settled r, w')
    else
      match chainType with
      | CT VAULT_QA_CHAIN =>
          let chatModel := chatModel w in
          let (started, w') := initializeQAChain_call options w in
          (Suspended (r <- resume started ;; finishVaultQA chatModel r), w')
      | CT COPILOT_PLUS_CHAIN =>
          let chatModel := chatModel w in
          let chatPrompt := chatPrompt w in
          let (started, w') := initializeQAChain_call options w in
          (Suspended
             (resume started ;;; finishCopilotPlus chatModel TheMemory chatPrompt options),
           w')
      | _ => let (r, w') := setChain chainType options w in (Settled r, w')
      end.

Inductive ChainRunner : Type :=
| LLMChainRunner
| VaultQAChainRunner
| CopilotPlusChainRunner.

Definition getChainRunner : M ChainRunner :=
  chainType <- getChainType ;;
  match chainType with
  | CT LLM_CHAIN => ret LLMChainRunner
  | CT VAULT_QA_CHAIN => ret VaultQAChainRunner
  | CT COPILOT_PLUS_CHAIN => ret CopilotPlusChainRunner
  | _ => throw (newError ("Unsupported chain type: " ++ templateString chainType)%string)
  end.

Definition validateChainInitialization : M unit :=
  c <- read chain ;;
  let supported := match c with Some c => isSupportedChain c | None => false end in
  if negb supported then
    chainType <- getChainType ;;
    console_error
      [LStr "Chain is not initialized properly, re-initializing chain: ";
       LChainType chainType] ;;;
    chainType <- getChainType ;;
    not_awaited (setChain_call chainType noOptions)
  else ret tt.

(** The first statements of the [try] block of [createChainWithNewModel]:
    the lookup and the fallback.  They end with the values of the local
    variables [customModel] and [newModelKey]. *)
Definition resolveModel (newModelKey : string) : M (CustomModel * string) :=
  settings <- getSettings ;;
  match findCustomModel newModelKey (activeModels settings) with
  | Some customModel => ret (customModel, newModelKey)
  | None =>
      console_error
        [LStr "Resetting default model. No model configuration found for: ";
         LStr newModelKey] ;;;
      let customModel := BUILTIN_CHAT_MODELS_0 X in
      ret (customModel, (name customModel ++ "|" ++ provider customModel)%string)
  end.

(** [resolveModel] raises nothing, so the [try] block is entered at the
    call of [setChatModel]; the handler sees [newModelKey] as
    [resolveModel] left it. *)
Definition createChainWithNewModel : M unit :=
  newModelKey <- getModelKey ;;
  r <- resolveModel newModelKey ;;
  let (customModel, newModelKey) := r in
  try_catch
    (chatModelManager_setChatModel customModel ;;;
     chainType <- getChainType ;;
     not_awaited (setChain_call chainType noOptions) ;;;
     console_log [LStr ("Setting model to " ++ newModelKey)%string])
    (fun error =>
       console_error [LStr "createChainWithNewModel failed: "; LError error] ;;;
       console_log [LStr "modelKey:"; LStr newModelKey]).

Record RunOptions : Type := mkRunOptions {
  run_debug : option bool;
  run_ignoreSystemMessage : option bool
}.

Definition orFalse (b : option bool) : bool :=
  match b with Some b => b | None => false end.

(** [getSystemPrompt() || ""]. *)
Definition orEmpty (s : string) : string :=
  match s with
  | EmptyString => EmptyString
  | String c r => String c r
  end.

(** The prompt [runChain] builds when it leaves the system message out.
    The prompt library parses the text of the [AI_SENDER] tuple as a
    template and raises when its braces do not match. *)
Definition effectivePrompt (isO1Model : bool) : M ChatPromptTemplate :=
  human <- lift (HumanMessagePromptTemplate_fromTemplate "{input}") ;;
  effectivePrompt <-
    lift (fromMessages
            [FromTemplate (MessagesPlaceholder "history"); FromTemplate human]) ;;
  if isO1Model then
    systemPrompt <- getSystemPrompt ;;
    lift (fromMessages
            [FromTuple AI_SENDER (orEmpty systemPrompt); FromPrompt effectivePrompt])
  else ret effectivePrompt.

Definition isO1 (chatModel : ChatModel) : bool :=
  let modelName := or_else_empty (modelName chatModel) (model chatModel) in
  startsWith modelName "o1".

(** [runChain] up to the call of the runner: the result is the runner the
    turn is handed to, in the world in which it is called. *)
Definition runChain (userMessage : ChatMessage) (options : RunOptions)
  : M ChainRunner :=
  let debug := orFalse (run_debug options) in
  let ignoreSystemMessage := orFalse (run_ignoreSystemMessage options) in
  (if debug then
     console_log
       [LStr ("==== Step 0: Initial user message ====" ++ String "010"%char EmptyString);
        LMessage userMessage]
   else ret tt) ;;;
  ChainManager_validateChatModel ;;;
  validateChainInitialization ;;;
  chatModel <- getChatModel ;;
  let isO1Model := isO1 chatModel in
  (if ignoreSystemMessage || isO1Model then
     effectivePrompt <- effectivePrompt isO1Model ;;
     chainType <- getChainType ;;
     not_awaited
       (setChain_call chainType
          {| opt_prompt := Some effectivePrompt;
             opt_abortController := None;
             opt_refreshIndex := None |})
   else ret tt) ;;;
  getChainRunner.

(** One turn of the loop of [updateMemoryWithLoadedMessages]. *)
Definition replayPair (userMsg aiMsg : option ChatMessage) : M unit :=
  match userMsg, aiMsg with
  | Some userMsg, Some aiMsg =>
      match sender userMsg with
      | USER_SENDER =>
          memory <- getMemory ;;
          saveContext memory (message userMsg) (message aiMsg)
      | AI_SENDER => ret tt
      end
  | _, _ => ret tt
  end.

(** [for (let i = ...; i < messages.length; i += 2)], with fuel. *)
Fixpoint replayFrom (fuel i : nat) (messages : list ChatMessage) (w : World VS)
  : option (Completion unit * World VS) :=
  if Nat.ltb i (List.length messages) then
    match fuel with
    | O => None
    | S fuel' =>
        match replayPair (nth_error messages i) (nth_error messages (i + 1)) w with
        | (Normal _, w') => replayFrom fuel' (i + 2) messages w'
        | (Throw e, w') => Some (Throw e, w')
        end
    end
  else Some (Normal tt, w).

Definition updateMemoryWithLoadedMessages (messages : list ChatMessage) (w : World VS)
  : option (Completion unit * World VS) :=
  match clearChatMemory w with
  | (Normal _, w') => replayFrom (List.length messages) 0 messages w'
  | (Throw e, w') => Some (Throw e, w')
  end.

End Manager.

Arguments Settled {VS A} r.
Arguments Suspended {VS A} rest.

(** ** Concrete collaborators and worlds, for evaluation *)

Module Demo.

(** A vector store manager whose state is the loaded index, if any, and the
    number of indexing runs. *)
Definition Store : Type := (option Db * nat)%type.

Definition gpt4o : CustomModel :=
  {| name := "gpt-4o"; provider := "openai"; baseUrl := None; capabilities := ["vision"] |}.

Definition handleOf (m : CustomModel) : ChatModel :=
  {| modelName := Some (name m); model := None |}.

Definition registry : Collaborators Store :=
  {| validateChatModel := fun h => truthy (modelName h) || truthy (model h);
     setChatModel := fun m _ => (Normal tt, handleOf m);
     BUILTIN_CHAT_MODELS_0 := gpt4o;
     getDb := fun s => fst s;
     initializeDB := fun s => (Normal (Some (IndexHandle 1)), (Some (IndexHandle 1), snd s));
     indexVaultToVectorStore := fun s => (Normal tt, (fst s, S (snd s))) |}.

Definition defaultPrompt : ChatPromptTemplate :=
  {| promptMessages :=
       [SystemMessagePromptTemplate "You are Obsidian Copilot.";
        MessagesPlaceholder "history";
        HumanMessagePromptTemplate "{input}"] |}.

Definition noModel : ChatModel := {| modelName := None; model := None |}.

(** A freshly started plugin: no pipeline yet, no usable chat model. *)
Definition fresh : World Store :=
  {| chain := None;
     retrievalChain := None;
     chainType := CT LLM_CHAIN;
     modelKey := "gpt-4o|openai";
     settings := {| activeModels := [gpt4o]; maxSourceChunks := 3; debug := false |};
     systemPrompt := "You are Obsidian Copilot.";
     chatModel := noModel;
     chatPrompt := defaultPrompt;
     memory := [("earlier question", "earlier answer")];
     embeddingsAPI := None;
     vectorStore := (None, 0);
     vault := TheVault;
     brevilabsClient := TheBrevilabsClient;
     effects := [] |}.

(** The same with a usable chat model installed. *)
Definition ready : World Store := with_chatModel (handleOf gpt4o) fresh.

Definition oldRetriever : HybridRetriever :=
  newHybridRetriever (IndexHandle 7) TheVault (handleOf gpt4o) (EmbeddingsHandle 7)
    TheBrevilabsClient
    {| minSimilarityScore := (1 # 100)%Q; maxK := 3; salientTerms := [] |} false.

Definition oldRetrievalChain : RetrievalChain :=
  createConversationalRetrievalChain (handleOf gpt4o) oldRetriever "old system prompt" false.

(** A world with a retrieval pipeline from an earlier switch, whose
    embeddings provider has since lost its API. *)
Definition afterVaultQA : World Store :=
  with_retrievalChain (Some oldRetrievalChain) ready.

(** Two active models with the same name and provider. *)
Definition gpt4_a : CustomModel :=
  {| name := "gpt-4"; provider := "openai"; baseUrl := None; capabilities := [] |}.
Definition gpt4_b : CustomModel :=
  {| name := "gpt-4"; provider := "openai";
     baseUrl := Some "https://proxy.example/v1"; capabilities := [] |}.
Definition duplicateModels : list CustomModel := [gpt4_a; gpt4_b].

(** A world whose model key names a model that is no longer configured,
    and in which no chain type is persisted. *)
Definition retired : World Store :=
  {| chain := None;
     retrievalChain := None;
     chainType := CT_null;
     modelKey := "retired-model|openai";
     settings := {| activeModels := [gpt4o]; maxSourceChunks := 3; debug := false |};
     systemPrompt := "You are Obsidian Copilot.";
     chatModel := noModel;
     chatPrompt := defaultPrompt;
     memory := [];
     embeddingsAPI := None;
     vectorStore := (None, 0%nat);
     vault := TheVault;
     brevilabsClient := TheBrevilabsClient;
     effects := [] |}.

(** A plain-chat world whose chat model is of the o1 family. *)
Definition o1preview : ChatModel := {| modelName := Some "o1-preview"; model := None |}.

Definition reasoning : World Store :=
  {| chain := Some (createNewLLMChain o1preview TheMemory defaultPrompt None);
     retrievalChain := None;
     chainType := CT LLM_CHAIN;
     modelKey := "o1-preview|openai";
     settings := {| activeModels := [gpt4o]; maxSourceChunks := 3; debug := false |};
     systemPrompt := "You are Obsidian Copilot.";
     chatModel := o1preview;
     chatPrompt := defaultPrompt;
     memory := [];
     embeddingsAPI := None;
     vectorStore := (None, 0%nat);
     vault := TheVault;
     brevilabsClient := TheBrevilabsClient;
     effects := [] |}.

Definition plainRun : RunOptions :=
  {| run_debug := None; run_ignoreSystemMessage := None |}.

(** A world whose embeddings provider has an API. *)
Definition equipped : World Store :=
  {| chain := None;
     retrievalChain := None;
     chainType := CT COPILOT_PLUS_CHAIN;
     modelKey := "gpt-4o|openai";
     settings := {| activeModels := [gpt4o]; maxSourceChunks := 3; debug := true |};
     systemPrompt := "You are Obsidian Copilot.";
     chatModel := handleOf gpt4o;
     chatPrompt := defaultPrompt;
     memory := [("earlier question", "earlier answer")];
     embeddingsAPI := Some (EmbeddingsHandle 2);
     vectorStore := (None, 0%nat);
     vault := TheVault;
     brevilabsClient := TheBrevilabsClient;
     effects := [] |}.

Definition hi : ChatMessage := {| sender := USER_SENDER; message := "hi" |}.
Definition hello : ChatMessage := {| sender := AI_SENDER; message := "hello" |}.

End Demo.

(** ** Further helpers of [utils.ts] *)

(** [stringToChainType]. *)
Definition stringToChainType (chain : string) : Completion ChainType :=
  if String.eqb chain "llm_chain" then Normal LLM_CHAIN
  else if String.eqb chain "vault_qa" then Normal VAULT_QA_CHAIN
  else if String.eqb chain "copilot_plus" then Normal COPILOT_PLUS_CHAIN
  else Throw (newError ("Unknown chain type: " ++ chain)%string).

(** [Array.prototype.findIndex]; [None] stands for [-1]. *)
Fixpoint findIndex {A : Type} (f : A -> bool) (l : list A) : option nat :=
  match l with
  | [] => None
  | x :: rest => if f x then Some 0%nat else option_map S (findIndex f rest)
  end.

(** [Array.prototype.slice(start, end)] for two indices that are not
    negative. *)
Definition slice {A : Type} (start end_ : nat) (l : list A) : list A :=
  firstn (end_ - start) (skipn start l).

Definition isUserMessage (msg : ChatMessage) : bool :=
  match sender msg with
  | USER_SENDER => true
  | AI_SENDER => false
  end.

(** [getChatContext]; the context size is a whole number. *)
Definition getChatContext (chatHistory : list ChatMessage) (contextSize : Z)
  : list ChatMessage :=
  match chatHistory with
  | [] => []
  | _ =>
      match findIndex (fun msg => negb (isUserMessage msg)) (rev chatHistory) with
      | None => []
      | Some lastAiMessageIndex =>
          let lastIndex :=
            (Z.of_nat (List.length chatHistory) - 1 - Z.of_nat lastAiMessageIndex)%Z in
          let startIndex := Z.max 0 (lastIndex - contextSize + 1) in
          slice (Z.to_nat startIndex) (Z.to_nat (lastIndex + 1)) chatHistory
      end
  end.

(** A message of the memory's history, as far as [extractChatHistory]
    reads it. *)
Record BaseMessage : Type := mkBaseMessage { content : string }.

Record MemoryVariables : Type := mkMemoryVariables { history : list BaseMessage }.

(** [history[i]?.content || ""]. *)
Definition contentOrEmpty (m : option BaseMessage) : string :=
  match m with
  | Some m => orEmpty (content m)
  | None => EmptyString
  end.

(** The loop of [extractChatHistory], with fuel. *)
Fixpoint extractFrom (fuel i : nat) (history : list BaseMessage)
  (chatHistory : list (string * string)) : option (list (string * string)) :=
  if Nat.ltb i (List.length history) then
    match fuel with
    | O => None
    | S fuel' =>
        let userMessage := contentOrEmpty (nth_error history i) in
        let aiMessage := contentOrEmpty (nth_error history (i + 1)) in
        extractFrom fuel' (i + 2) history (chatHistory ++ [(userMessage, aiMessage)])
    end
  else Some chatHistory.

Definition extractChatHistory (memoryVariables : MemoryVariables)
  : option (list (string * string)) :=
  let history := history memoryVariables in
  extractFrom (List.length history) 0 history [].

(** A retrieved document, as far as [extractUniqueTitlesFromDocs] reads it:
    [metadata] may be missing, and so may its [title]. *)
Record Metadata : Type := mkMetadata { title : option string }.

Record Document : Type := mkDocument {
  pageContent : string;
  metadata : option Metadata
}.

(** [Set.prototype.add] on a set of strings kept in insertion order. *)
Definition setAdd (set : list string) (x : string) : list string :=
  if existsb (String.eqb x) set then set else set ++ [x].

(** [doc.metadata?.title]. *)
Definition metadataTitle (doc : Document) : option string :=
  match metadata doc with
  | Some m => title m
  | None => None
  end.

Definition extractUniqueTitlesFromDocs (docs : list Document) : list string :=
  fold_left
    (fun titlesSet doc =>
       if truthy (metadataTitle doc) then
         match metadataTitle doc with
         | Some t => setAdd titlesSet t
         | None => titlesSet
         end
       else titlesSet)
    docs [].

(** [s.includes(sub)]. *)
Fixpoint includes (s sub : string) : bool :=
  String.prefix sub s ||
  match s with
  | EmptyString => false
  | String _ rest => includes rest sub
  end.

(** [areEmbeddingModelsSame]; the constant [NOMIC_EMBED_TEXT] is declared
    elsewhere and is a parameter here. *)
Definition areEmbeddingModelsSame (NOMIC_EMBED_TEXT : string)
  (model1 model2 : option string) : bool :=
  if negb (truthy model1) || negb (truthy model2) then false
  else
    match model1, model2 with
    | Some model1, Some model2 =>
        if includes model1 NOMIC_EMBED_TEXT && includes model2 NOMIC_EMBED_TEXT
        then true
        else if (String.eqb model1 "small" && String.eqb model2 "cohereai") ||
                (String.eqb model1 "cohereai" && String.eqb model2 "small")
        then true
        else String.eqb model1 model2
    | _, _ => false
    end.

(** A plain object: its own properties, in order. *)
Definition JsObject (V : Type) : Type := list (string * V).

Fixpoint getProperty {V : Type} (obj : JsObject V) (key : string) : option V :=
  match obj with
  | [] => None
  | (k, v) :: rest => if String.eqb k key then Some v else getProperty rest key
  end.

(** [delete obj[key]]. *)
Definition deleteProperty {V : Type} (obj : JsObject V) (key : string) : JsObject V :=
  filter (fun kv => negb (String.eqb (fst kv) key)) obj.

(** [omit]: the copy [{ ...obj }] is the list itself. *)
Definition omit {V : Type} (obj : JsObject V) (keys : list string) : JsObject V :=
  fold_left deleteProperty keys obj.

(** The entries of the provider table, as far as the helpers read them. *)
Record ProviderMetadata : Type := mkProviderMetadata {
  label : string;
  host : string;
  keyManagementURL : string
}.

Section Providers.

(** The table [ProviderInfo] is declared elsewhere; [None] is a provider
    without entry. *)
Variable ProviderInfo : string -> option ProviderMetadata.

(** [getProviderInfo]: spreading [undefined] is harmless, reading [label]
    of [undefined] raises a [TypeError] (its message as V8 words it). *)
Definition getProviderInfo (provider : string) : Completion ProviderMetadata :=
  match ProviderInfo provider with
  | Some info =>
      Normal {| label := match label info with
                         | EmptyString => provider
                         | l => l
                         end;
                host := host info;
                keyManagementURL := keyManagementURL info |}
  | None =>
      Throw (newError "Cannot read properties of undefined (reading 'label')")
  end.

(** [ProviderInfo[provider]?.label || provider]. *)
Definition getProviderLabel (provider : string) : string :=
  match ProviderInfo provider with
  | Some info => match label info with
                 | EmptyString => provider
                 | l => l
                 end
  | None => provider
  end.

Definition getProviderHost (provider : string) : string :=
  match ProviderInfo provider with
  | Some info => orEmpty (host info)
  | None => EmptyString
  end.

Definition getProviderKeyManagementURL (provider : string) : string :=
  match ProviderInfo provider with
  | Some info => orEmpty (keyManagementURL info)
  | None => EmptyString
  end.

End Providers.

(** *** Notes under a path *)

(** A file of the vault, as far as the helpers read it. *)
Record TFile : Type := mkTFile {
  path : string;
  basename : string;
  extension : string
}.

(** [s.split(sep)] for a separator of one character. *)
Fixpoint splitOn (sep : ascii) (s : string) : list string :=
  match s with
  | EmptyString => [EmptyString]
  | String c rest =>
      if Ascii.eqb c sep then EmptyString :: splitOn sep rest
      else match splitOn sep rest with
           | h :: t => String c h :: t
           | [] => [String c EmptyString]
           end
  end.

Fixpoint dropLastSlash (s : string) : string :=
  match s with
  | EmptyString => EmptyString
  | String c EmptyString => if Ascii.eqb c "/"%char then EmptyString else s
  | String c rest => String c (dropLastSlash rest)
  end.

(** [s.replace(/^\/|\/$/g, "")]: one slash less at the start and one less
    at the end. *)
Definition stripSlashes (s : string) : string :=
  match s with
  | String c rest =>
      if Ascii.eqb c "/"%char then dropLastSlash rest else dropLastSlash s
  | EmptyString => EmptyString
  end.

(** The [while] loop of [getNotesFromPath]: the index moves on until it
    leaves the file path parts or stands on the part looked for.  The fuel
    is the number of parts still ahead. *)
Fixpoint scanLoop (fuel : nat) (filePathParts : list string) (pathPart : string)
  (filePathIndex : nat) : nat :=
  match fuel with
  | O => filePathIndex
  | S fuel' =>
      if Nat.ltb filePathIndex (List.length filePathParts) then
        if strict_eq pathPart (nth_error filePathParts filePathIndex)
        then filePathIndex
        else scanLoop fuel' filePathParts pathPart (S filePathIndex)
      else filePathIndex
  end.

Definition scanFor (filePathParts : list string) (pathPart : string)
  (filePathIndex : nat) : nat :=
  scanLoop (List.length filePathParts - filePathIndex) filePathParts pathPart
    filePathIndex.

(** The [for] loop over the parts of the input path. *)
Fixpoint containsInOrder (pathParts filePathParts : list string) (filePathIndex : nat)
  : bool :=
  match pathParts with
  | [] => true
  | pathPart :: rest =>
      let filePathIndex := scanFor filePathParts pathPart filePathIndex in
      if Nat.leb (List.length filePathParts) filePathIndex then false
      else containsInOrder rest filePathParts filePathIndex
  end.

(** [getNotesFromPath]; [files] is what [vault.getMarkdownFiles()]
    returns, and [toLowerCase] is the method of strings, a parameter. *)
Definition getNotesFromPath (toLowerCase : string -> string) (files : list TFile)
  (path' : string) : list TFile :=
  if String.eqb path' "/" then files
  else
    let normalizedPath := stripSlashes (toLowerCase path') in
    filter
      (fun file =>
         let normalizedFilePath := toLowerCase (path file) in
         let filePathParts := splitOn "/"%char normalizedFilePath in
         let pathParts := splitOn "/"%char normalizedPath in
         containsInOrder pathParts filePathParts 0)
      files.

(** [getNoteFileFromTitle]: the first markdown file with that basename. *)
Definition getNoteFileFromTitle (files : list TFile) (noteTitle : string)
  : option TFile :=
  find (fun file => String.eqb (basename file) noteTitle) files.

(** ** Sample values, for evaluation *)

Module Samples.

Definition question : ChatMessage := {| sender := USER_SENDER; message := "what is it?" |}.
Definition answer : ChatMessage := {| sender := AI_SENDER; message := "a note" |}.
Definition followUp : ChatMessage := {| sender := USER_SENDER; message := "and then?" |}.

Definition providers (provider : string) : option ProviderMetadata :=
  if String.eqb provider "openai" then
    Some {| label := "OpenAI"; host := "https://api.openai.com";
            keyManagementURL := "https://platform.openai.com/api-keys" |}
  else None.

(** Collaborators whose index cannot be initialized. *)
Definition brokenIndex : Collaborators Demo.Store :=
  {| validateChatModel := validateChatModel Demo.registry;
     setChatModel := setChatModel Demo.registry;
     BUILTIN_CHAT_MODELS_0 := Demo.gpt4o;
     getDb := fun s => fst s;
     initializeDB := fun s => (Normal None, s);
     indexVaultToVectorStore := fun s => (Normal tt, (fst s, S (snd s))) |}.

Definition refresh : SetChainOptions :=
  {| opt_prompt := None; opt_abortController := None; opt_refreshIndex := Some true |}.

(** A world with embeddings and a loaded index. *)
Definition indexed : World Demo.Store :=
  with_vectorStore (Some (IndexHandle 5), 0%nat) Demo.equipped.

(** Collaborators whose [initializeDB] raises. *)
Definition failingInit (s : Demo.Store) : Completion (option Db) * Demo.Store :=
  (Throw (newError "disk unavailable"), s).

Definition docs : list Document :=
  [ {| pageContent := "alpha"; metadata := Some {| title := Some "Note A" |} |};
    {| pageContent := "beta"; metadata := None |};
    {| pageContent := "gamma"; metadata := Some {| title := Some "" |} |};
    {| pageContent := "delta"; metadata := Some {| title := Some "Note A" |} |} ].

Definition lowerChar (c : ascii) : ascii :=
  let n := nat_of_ascii c in
  if Nat.leb 65 n && Nat.leb n 90 then ascii_of_nat (n + 32) else c.

(** Lower case on the letters A to Z. *)
Fixpoint lowerAscii (s : string) : string :=
  match s with
  | EmptyString => EmptyString
  | String c rest => String (lowerChar c) (lowerAscii rest)
  end.

(** A plain-chat world with its pipeline in place. *)
Definition chatting : World Demo.Store :=
  with_chain
    (Some (createNewLLMChain (Demo.handleOf Demo.gpt4o) TheMemory Demo.defaultPrompt None))
    Demo.ready.

Definition daily : TFile :=
  {| path := "Notes/2024/Daily/monday.md"; basename := "monday"; extension := "md" |}.
Definition inbox : TFile :=
  {| path := "Inbox/monday.md"; basename := "monday"; extension := "md" |}.



(** A plain-chat world with a model of the o1 family and a system prompt
    whose brace is never closed. *)
Definition reasoningBraces : World Demo.Store :=
  {| chain := Some (createNewLLMChain Demo.o1preview TheMemory Demo.defaultPrompt None);
     retrievalChain := None;
     chainType := CT LLM_CHAIN;
     modelKey := "o1-preview|openai";
     settings := {| activeModels := [Demo.gpt4o]; maxSourceChunks := 3; debug := false |};
     systemPrompt := "Answer in {style";
     chatModel := Demo.o1preview;
     chatPrompt := Demo.defaultPrompt;
     memory := [];
     embeddingsAPI := None;
     vectorStore := (None, 0%nat);
     vault := TheVault;
     brevilabsClient := TheBrevilabsClient;
     effects := [] |}.

(** An agentic world with a model of the o1 family, its pipeline in
    place. *)
Definition reasoningAgentic : World Demo.Store :=
  {| chain := Some (createNewLLMChain Demo.o1preview TheMemory Demo.defaultPrompt None);
     retrievalChain := None;
     chainType := CT COPILOT_PLUS_CHAIN;
     modelKey := "o1-preview|openai";
     settings := {| activeModels := [Demo.gpt4o]; maxSourceChunks := 3; debug := false |};
     systemPrompt := "You are Obsidian Copilot.";
     chatModel := Demo.o1preview;
     chatPrompt := Demo.defaultPrompt;
     memory := [];
     embeddingsAPI := Some (EmbeddingsHandle 2);
     vectorStore := (Some (IndexHandle 5), 0%nat);
     vault := TheVault;
     brevilabsClient := TheBrevilabsClient;
     effects := [] |}.

Definition ignoringRun : RunOptions :=
  {| run_debug := None; run_ignoreSystemMessage := Some true |}.

Definition loggingRun : RunOptions :=
  {| run_debug := Some true; run_ignoreSystemMessage := None |}.

Definition debugRun : RunOptions :=
  {| run_debug := Some true; run_ignoreSystemMessage := Some true |}.

End Samples.

(** ** Further properties: definitions *)

(** The runner of a mode. *)
Definition runnerOf (c : ChainType) : ChainRunner :=
  match c with
  | LLM_CHAIN => LLMChainRunner
  | VAULT_QA_CHAIN => VaultQAChainRunner
  | COPILOT_PLUS_CHAIN => CopilotPlusChainRunner
  end.

(** The same collaborators with another [initializeDB]. *)
Definition withInitializeDB {VS : Type}
  (f : VS -> Completion (option Db) * VS) (X : Collaborators VS) : Collaborators VS :=
  {| validateChatModel := validateChatModel X;
     setChatModel := setChatModel X;
     BUILTIN_CHAT_MODELS_0 := BUILTIN_CHAT_MODELS_0 X;
     getDb := getDb X;
     initializeDB := f;
     indexVaultToVectorStore := indexVaultToVectorStore X |}.

(** [l1] is [l2] with entries left out. *)
Inductive Subseq {A : Type} : list A -> list A -> Prop :=
| Subseq_nil (l : list A) : Subseq [] l
| Subseq_skip (x : A) (l1 l2 : list A) : Subseq l1 l2 -> Subseq l1 (x :: l2)
| Subseq_take (x : A) (l1 l2 : list A) : Subseq l1 l2 -> Subseq (x :: l1) (x :: l2).

(** The last [n] entries of a list. *)
Definition lastn {A : Type} (n : nat) (l : list A) : list A :=
  skipn (List.length l - n) l.

(** A history read two entries at a time, a missing partner read as the
    empty string. *)
Fixpoint pairUp (history : list BaseMessage) : list (string * string) :=
  match history with
  | [] => []
  | [u] => [(orEmpty (content u), EmptyString)]
  | u :: a :: rest => (orEmpty (content u), orEmpty (content a)) :: pairUp rest
  end.

(** The history that holds the given exchanges, input before output. *)
Definition interleave (pairs : list (string * string)) : list BaseMessage :=
  flat_map (fun p => [mkBaseMessage (fst p); mkBaseMessage (snd p)]) pairs.

(** ** Properties: definitions *)

(** The transcript read two entries at a time: the pairs whose first entry
    is attributed to the user, an entry without partner being dropped. *)
Fixpoint pairsOfTranscript (messages : list ChatMessage) : list (string * string) :=
  match messages with
  | userMsg :: aiMsg :: rest =>
      match sender userMsg with
      | USER_SENDER => (message userMsg, message aiMsg) :: pairsOfTranscript rest
      | AI_SENDER => pairsOfTranscript rest
      end
  | _ => []
  end.

(** A string without the separator of model keys. *)
Fixpoint barFree (s : string) : bool :=
  match s with
  | EmptyString => true
  | String c rest => negb (Ascii.eqb c "|"%char) && barFree rest
  end.

(** Several entries of a list of models answer to one key. *)
Definition duplicatedKey (modelKey : string) (models : list CustomModel) : Prop :=
  exists i j a b,
    i <> j /\ nth_error models i = Some a /\ nth_error models j = Some b /\
    key_matches modelKey a = true /\ key_matches modelKey b = true.

(** Console output, as opposed to notices and writes of the manager. *)
Definition isConsole (e : Effect) : bool :=
  match e with
  | ConsoleError _ | ConsoleWarn _ | ConsoleLog _ => true
  | _ => false
  end.

Definition isNotice (e : Effect) : bool :=
  match e with
  | NoticeShown _ => true
  | _ => false
  end.

(** The active chain, the retrieval chain and the persisted chain type are
    the same in two worlds. *)
Definition untouched {VS : Type} (w w' : World VS) : Prop :=
  chain w' = chain w /\ retrievalChain w' = retrievalChain w /\
  chainType w' = chainType w.

(** [a] is the write of the pipeline of mode [c], and the world holds that
    pipeline. *)
Definition pipelineAssigned {VS : Type} (c : ChainType) (a : Effect) (w' : World VS)
  : Prop :=
  match c with
  | VAULT_QA_CHAIN => exists p, a = RetrievalChainAssigned p /\ retrievalChain w' = Some p
  | _ => exists p, a = ChainAssigned p /\ chain w' = Some p
  end.

(** A chat model of the o1 family: its name, which is [modelName] when
    that is there and not empty and [model] otherwise, starts with [o1]. *)
Definition reasoningOnly (m : ChatModel) : Prop :=
  exists rest,
    modelName m = Some ("o1" ++ rest)%string \/
    ((modelName m = None \/ modelName m = Some EmptyString) /\
     model m = Some ("o1" ++ rest)%string).

(** The prompt without system message, and the one with the text of the
    system prompt as a leading message of the assistant. *)
Definition promptWithoutSystem : ChatPromptTemplate :=
  {| promptMessages :=
       [MessagesPlaceholder "history"; HumanMessagePromptTemplate "{input}"] |}.

Definition promptWithAssistant (text : string) : ChatPromptTemplate :=
  {| promptMessages :=
       [AIMessagePromptTemplate text; MessagesPlaceholder "history";
        HumanMessagePromptTemplate "{input}"] |}.

Definition promptOnly (p : ChatPromptTemplate) : SetChainOptions :=
  {| opt_prompt := Some p; opt_abortController := None; opt_refreshIndex := None |}.

(** The world after the index-readiness step: only the state of the vector
    store manager and the console have moved. *)
Definition afterIndexing {VS : Type} (v : VS) (logged : list Effect) (w : World VS)
  : World VS :=
  mkWorld (chain w) (retrievalChain w) (chainType w) (modelKey w) (settings w)
    (systemPrompt w) (chatModel w) (chatPrompt w) (memory w) (embeddingsAPI w)
    v (vault w) (brevilabsClient w) (effects w ++ logged).

(** The plain pipeline [setChain] builds in a world, and the world once it
    is installed for mode [c]. *)
Definition plainPipeline {VS : Type} (options : SetChainOptions) (w : World VS)
  : LLMChain :=
  createNewLLMChain (chatModel w) TheMemory (promptOr options (chatPrompt w))
    (opt_abortController options).

Definition installPlain {VS : Type} (c : ChainType) (p : LLMChain) (w : World VS)
  : World VS :=
  emit (ChainTypePersisted c)
    (with_chainType (CT c) (emit (ChainAssigned p) (with_chain (Some p) w))).

(** The retrieval pipeline [setChain] builds from the chat model [m], the
    handles the index-readiness step returned, and the world after that
    step; and the world once it is installed. *)
Definition retrievalPipeline {VS : Type} (m : ChatModel) (e : EmbeddingsAPI) (d : Db)
  (w : World VS) : RetrievalChain :=
  createConversationalRetrievalChain m
    (newHybridRetriever d (vault w) m e (brevilabsClient w)
       {| minSimilarityScore := (1 # 100)%Q;
          maxK := maxSourceChunks (settings w);
          salientTerms := [] |}
       (debug (settings w)))
    (systemPrompt w) (debug (settings w)).

Definition debugLines : list Effect :=
  [ConsoleLog [LStr "New Vault QA chain with hybrid retriever created for entire vault"];
   ConsoleLog [LStr "Set chain:"; LChainType (CT VAULT_QA_CHAIN)]].

Definition installRetrieval {VS : Type} (p : RetrievalChain) (w : World VS)
  : World VS :=
  let w' := emit (ChainTypePersisted VAULT_QA_CHAIN)
              (with_chainType (CT VAULT_QA_CHAIN)
                 (emit (RetrievalChainAssigned p) (with_retrievalChain (Some p) w))) in
  if debug (settings w) then fold_left (fun w e => emit e w) debugLines w' else w'.

(** ** Properties *)

(** *** Model lookup *)

Lemma find_first_match (A : Type) (f : A -> bool) (l : list A) (x : A) :
  find f l = Some x ->
  exists before after,
    l = before ++ x :: after /\ f x = true /\ forallb (fun y => negb (f y)) before = true.
Proof.
  induction l as [|y l IH]; simpl; [discriminate|].
  destruct (f y) eqn:Hy.
  - intros [= ->]. exists [], l. auto.
  - intros H. destruct (IH H) as (before & after & -> & Hx & Hb).
    exists (y :: before), after. simpl. rewrite Hy. auto.
Qed.

Lemma find_none_iff (A : Type) (f : A -> bool) (l : list A) :
  find f l = None <-> (forall y, In y l -> f y = false).
Proof.
  split.
  - intros H y Hy. exact (find_none f l H y Hy).
  - induction l as [|y l IH]; simpl; [reflexivity|].
    intros H. rewrite (H y (or_introl eq_refl)). apply IH. auto.
Qed.

Lemma split_bar_barFree (s : string) :
  barFree s = true -> split_bar s = [s].
Proof.
  induction s as [|c rest IH]; [reflexivity|].
  cbn [barFree split_bar]. destruct (Ascii.eqb c "|"); [discriminate|].
  intros H. rewrite (IH H). reflexivity.
Qed.

Lemma split_bar_composite (n p : string) :
  barFree n = true -> split_bar (n ++ "|" ++ p)%string = n :: split_bar p.
Proof.
  induction n as [|c rest IH]; simpl in *; [reflexivity|].
  destruct (Ascii.eqb c "|"); [discriminate|].
  intros H. rewrite (IH H). reflexivity.
Qed.

Lemma key_matches_composite (n p : string) (m : CustomModel) :
  barFree n = true -> barFree p = true ->
  (key_matches (n ++ "|" ++ p)%string m = true <-> name m = n /\ provider m = p).
Proof.
  intros Hn Hp. unfold key_matches.
  rewrite (split_bar_composite n p Hn), (split_bar_barFree p Hp). cbn.
  rewrite andb_true_iff, !String.eqb_eq. reflexivity.
Qed.

Example split_bar_examples :
  split_bar "gpt-4o|openai" = ["gpt-4o"; "openai"] /\
  split_bar "a|b|c" = ["a"; "b"; "c"] /\
  split_bar "" = [""] /\
  split_bar "llama3" = ["llama3"] /\
  split_bar "a|" = ["a"; ""].
Proof. repeat split. Qed.

Example key_matches_examples :
  key_matches "gpt-4o|openai" Demo.gpt4o = true /\
  key_matches "gpt-4o" Demo.gpt4o = false /\
  key_matches "gpt-4o|openai|eu" Demo.gpt4o = true /\
  key_matches "gpt-4|openai" Demo.gpt4o = false.
Proof. repeat split. Qed.

(** C7 (as the code has it).  Both lookups return the first model, in the
    order of the list of active models, whose name and provider are the two
    first segments of the key; the helper of [utils.ts] raises exactly when
    no model matches, the method of [ChainManager] then returns
    [undefined].  Neither looks for a second match.  For a key
    [name|provider] whose two parts hold no separator, a model matches
    exactly when it has that name and that provider. *)
Theorem findCustomModel_returns_first_match (modelKey : string) (models : list CustomModel) :
  (forall m, findCustomModel modelKey models = Some m ->
     exists before after,
       models = before ++ m :: after /\ key_matches modelKey m = true /\
       forallb (fun y => negb (key_matches modelKey y)) before = true) /\
  (forall m, utils_findCustomModel modelKey models = Normal m <->
             findCustomModel modelKey models = Some m) /\
  ((exists e, utils_findCustomModel modelKey models = Throw e) <->
   (forall m, In m models -> key_matches modelKey m = false)) /\
  (findCustomModel modelKey models = None <->
   (forall m, In m models -> key_matches modelKey m = false)) /\
  (forall n p m,
     barFree n = true -> barFree p = true ->
     (key_matches (n ++ "|" ++ p)%string m = true <-> name m = n /\ provider m = p)).
Proof.
  unfold findCustomModel, utils_findCustomModel.
  split; [|split; [|split; [|split; [|exact key_matches_composite]]]].
  - intros m H. now apply find_first_match.
  - intros m. destruct (find (key_matches modelKey) models); split; congruence.
  - rewrite <- find_none_iff.
    destruct (find (key_matches modelKey) models); split.
    + intros [e H]. discriminate.
    + discriminate.
    + reflexivity.
    + intros _. eexists. reflexivity.
  - apply find_none_iff.
Qed.

Lemma findCustomModel_returns_first_match_witness :
  exists before after,
    Demo.duplicateModels = before ++ Demo.gpt4_a :: after /\
    key_matches "gpt-4|openai" Demo.gpt4_a = true /\
    forallb (fun y => negb (key_matches "gpt-4|openai" y)) before = true.
Proof.
  apply (proj1 (findCustomModel_returns_first_match "gpt-4|openai" Demo.duplicateModels)).
  reflexivity.
Defined.

(** C7 (as stated) fails: with two active models of one name and one
    provider, both lookups return the first of them and raise nothing. *)
Lemma findCustomModel_silent_on_duplicates :
  duplicatedKey "gpt-4|openai" Demo.duplicateModels /\
  Demo.gpt4_a <> Demo.gpt4_b /\
  utils_findCustomModel "gpt-4|openai" Demo.duplicateModels = Normal Demo.gpt4_a /\
  findCustomModel "gpt-4|openai" Demo.duplicateModels = Some Demo.gpt4_a.
Proof.
  split; [|split; [|split]].
  - exists 0%nat, 1%nat, Demo.gpt4_a, Demo.gpt4_b.
    repeat split; try reflexivity. discriminate.
  - discriminate.
  - reflexivity.
  - reflexivity.
Qed.

(** *** Replay of a loaded transcript *)

Lemma skipn_nth_error (A : Type) (l : list A) (i : nat) (x : A) :
  nth_error l i = Some x -> skipn i l = x :: skipn (S i) l.
Proof.
  revert i. induction l as [|y l IH]; intros [|i]; simpl; try discriminate.
  - intros [= ->]. reflexivity.
  - intros H. now apply IH.
Qed.

Lemma with_memory_same (VS : Type) (w : World VS) :
  with_memory (memory w ++ []) w = w.
Proof. destruct w. unfold with_memory. simpl. now rewrite app_nil_r. Qed.

Lemma replayFrom_pairs (VS : Type) (fuel : nat) :
  forall (i : nat) (messages : list ChatMessage) (w : World VS),
    List.length messages <= i + 2 * fuel ->
    replayFrom fuel i messages w =
    Some (Normal tt, with_memory (memory w ++ pairsOfTranscript (skipn i messages)) w).
Proof.
  induction fuel as [|fuel IH]; intros i messages w Hfuel.
  - simpl. assert (Hi : List.length messages <= i) by lia.
    apply Nat.ltb_ge in Hi as Hlt. rewrite Hlt.
    rewrite skipn_all2 by exact Hi. simpl. now rewrite with_memory_same.
  - simpl. destruct (Nat.ltb i (List.length messages)) eqn:Hlt.
    + apply Nat.ltb_lt in Hlt.
      destruct (nth_error messages i) as [userMsg|] eqn:Hu.
      2:{ apply nth_error_None in Hu. lia. }
      rewrite (skipn_nth_error _ _ _ _ Hu).
      replace (i + 1) with (S i) by lia.
      destruct (nth_error messages (S i)) as [aiMsg|] eqn:Ha.
      * rewrite (skipn_nth_error _ _ _ _ Ha). simpl.
        replace (i + 2) with (S (S i)) by lia.
        destruct (sender userMsg); cbn.
        -- rewrite IH by lia. cbn. now rewrite <- app_assoc.
        -- rewrite IH by lia. reflexivity.
      * apply nth_error_None in Ha.
        assert (E1 : skipn (S i) messages = []) by (apply skipn_all2; lia).
        assert (E2 : skipn (i + 2) messages = []) by (apply skipn_all2; lia).
        rewrite E1. cbn [replayPair ret pairsOfTranscript].
        rewrite IH by lia. rewrite E2. reflexivity.
    + apply Nat.ltb_ge in Hlt.
      rewrite skipn_all2 by exact Hlt. simpl. now rewrite with_memory_same.
Qed.

Lemma list_pair_ind (A : Type) (P : list A -> Prop) :
  P [] -> (forall x, P [x]) -> (forall x y l, P l -> P (x :: y :: l)) ->
  forall l, P l.
Proof.
  intros H0 H1 H2 l.
  enough (H : P l /\ forall x, P (x :: l)) by apply H.
  induction l as [|y l [IHl IHx]]; split; auto.
Qed.

Lemma In_pairsOfTranscript (messages : list ChatMessage) (input output : string) :
  In (input, output) (pairsOfTranscript messages) <->
  exists k userMsg aiMsg,
    nth_error messages (2 * k) = Some userMsg /\
    nth_error messages (2 * k + 1) = Some aiMsg /\
    sender userMsg = USER_SENDER /\
    input = message userMsg /\ output = message aiMsg.
Proof.
  induction messages as [|x|x y l IH] using list_pair_ind.
  - cbn [pairsOfTranscript In]. split; [tauto|]. intros (k & u & a & Hu & _).
    revert Hu. generalize (2 * k). intros [|n]; discriminate.
  - cbn [pairsOfTranscript In]. split; [tauto|]. intros (k & u & a & _ & Ha & _).
    replace (2 * k + 1) with (S (2 * k)) in Ha by lia.
    revert Ha. generalize (2 * k). intros [|n]; discriminate.
  - assert (Hshift : forall k, 
             nth_error (x :: y :: l) (2 * S k) = nth_error l (2 * k) /\
             nth_error (x :: y :: l) (2 * S k + 1) = nth_error l (2 * k + 1)).
    { intros k. replace (2 * S k) with (S (S (2 * k))) by lia. split; reflexivity. }
    cbn [pairsOfTranscript]. split.
    + intros H.
      assert (Hrest : In (input, output) (pairsOfTranscript l) ->
                      exists k userMsg aiMsg,
                        nth_error (x :: y :: l) (2 * k) = Some userMsg /\
                        nth_error (x :: y :: l) (2 * k + 1) = Some aiMsg /\
                        sender userMsg = USER_SENDER /\
                        input = message userMsg /\ output = message aiMsg).
      { intros Hin. apply IH in Hin. destruct Hin as (k & u & a & Hu & Ha & Hs).
        exists (S k), u, a. destruct (Hshift k) as [-> ->]. auto. }
      destruct (sender x) eqn:Hx.
      * destruct H as [H|H]; [|now apply Hrest].
        injection H as E1 E2. exists 0%nat, x, y. simpl. auto.
      * now apply Hrest.
    + intros (k & u & a & Hu & Ha & Hs & -> & ->).
      destruct k as [|k].
      * simpl in Hu, Ha. injection Hu as ->. injection Ha as ->.
        rewrite Hs. now left.
      * destruct (Hshift k) as [E1 E2]. rewrite E1 in Hu. rewrite E2 in Ha.
        assert (Hin : In (message u, message a) (pairsOfTranscript l)).
        { apply IH. exists k, u, a. auto. }
        destruct (sender x); [now right | exact Hin].
Qed.

(** C3.  [updateMemoryWithLoadedMessages] returns, raising nothing, for
    every transcript; it first clears the memory, so that afterwards the
    memory holds the pairs replayed from the transcript and nothing of what
    it held before, the rest of the world being as it was.  A pair
    (input, output) is committed exactly when, for some [k], the entries
    [2k] and [2k+1] both exist, the first is attributed to the user, and
    they carry the input and the output.  The transcript
    [[{USER,hi}; {AI,hello}]] leaves the one pair (hi, hello) and the
    transcript [[{USER,hi}]] leaves the memory empty. *)
Theorem updateMemoryWithLoadedMessages_replays_pairs
  (VS : Type) (messages : list ChatMessage) (w : World VS) :
  updateMemoryWithLoadedMessages messages w =
    Some (Normal tt, with_memory (pairsOfTranscript messages) w) /\
  (forall input output,
     In (input, output) (pairsOfTranscript messages) <->
     exists k userMsg aiMsg,
       nth_error messages (2 * k) = Some userMsg /\
       nth_error messages (2 * k + 1) = Some aiMsg /\
       sender userMsg = USER_SENDER /\
       input = message userMsg /\ output = message aiMsg) /\
  updateMemoryWithLoadedMessages [Demo.hi; Demo.hello] w =
    Some (Normal tt, with_memory [("hi", "hello")] w) /\
  updateMemoryWithLoadedMessages [Demo.hi] w = Some (Normal tt, with_memory [] w).
Proof.
  assert (H : forall ms, updateMemoryWithLoadedMessages ms w =
                         Some (Normal tt, with_memory (pairsOfTranscript ms) w)).
  { intros ms. unfold updateMemoryWithLoadedMessages, clearChatMemory.
    rewrite replayFrom_pairs by lia. reflexivity. }
  split; [apply H|]. split; [apply In_pairsOfTranscript|].
  split; apply H.
Qed.

Lemma updateMemoryWithLoadedMessages_replays_pairs_witness :
  exists k userMsg aiMsg,
    nth_error [Demo.hi; Demo.hello] (2 * k) = Some userMsg /\
    nth_error [Demo.hi; Demo.hello] (2 * k + 1) = Some aiMsg /\
    sender userMsg = USER_SENDER /\
    "hi" = message userMsg /\ "hello" = message aiMsg.
Proof.
  apply (proj1 (proj2 (updateMemoryWithLoadedMessages_replays_pairs
                         Demo.Store [Demo.hi; Demo.hello] Demo.ready))).
  simpl. left. reflexivity.
Defined.

(** *** Equations of [setChain] *)

Section SetChain.

Context {VS : Type}.
Variable X : Collaborators VS.

Lemma setChain_unusable (chainType : ChainTypeArg) (options : SetChainOptions)
  (w : World VS) :
  validateChatModel X (chatModel w) = false ->
  setChain X chainType options w =
  (Normal tt, emit (ConsoleError [LStr "setChain failed: No chat model set."]) w).
Proof.
  intros H. unfold setChain, bind, getChatModel, read. rewrite H. reflexivity.
Qed.

Lemma setChain_no_type (chainType : ChainTypeArg) (options : SetChainOptions)
  (w : World VS) :
  validateChatModel X (chatModel w) = true ->
  chainType = CT_undefined \/ chainType = CT_null ->
  setChain X chainType options w = (Throw (newError "No chain type set"), w).
Proof.
  intros H [-> | ->]; unfold setChain, bind, getChatModel, read; rewrite H;
    reflexivity.
Qed.

Lemma setChain_other (v : string) (options : SetChainOptions) (w : World VS) :
  validateChatModel X (chatModel w) = true ->
  setChain X (CT_other v) options w = (Normal tt, w).
Proof.
  intros H. unfold setChain, bind, getChatModel, read. rewrite H. reflexivity.
Qed.

Lemma setChain_LLM (options : SetChainOptions) (w : World VS) :
  validateChatModel X (chatModel w) = true ->
  setChain X (CT LLM_CHAIN) options w =
  (Normal tt, installPlain LLM_CHAIN (plainPipeline options w) w).
Proof.
  intros H. unfold setChain, bind, getChatModel, read. rewrite H. reflexivity.
Qed.

Lemma setChain_PLUS (options : SetChainOptions) (w : World VS) :
  validateChatModel X (chatModel w) = true ->
  setChain X (CT COPILOT_PLUS_CHAIN) options w =
  match initializeQAChain X options w with
  | (Normal _, w1) =>
      (Normal tt, installPlain COPILOT_PLUS_CHAIN (plainPipeline options w) w1)
  | (Throw e, w1) => (Throw e, w1)
  end.
Proof.
  intros H. unfold setChain. generalize (initializeQAChain X options). intros init.
  unfold bind, getChatModel, read. rewrite H. cbn.
  destruct (init w) as [[r|e] w1]; reflexivity.
Qed.

Lemma setChain_VAULT (options : SetChainOptions) (w : World VS) :
  validateChatModel X (chatModel w) = true ->
  setChain X (CT VAULT_QA_CHAIN) options w =
  match initializeQAChain X options w with
  | (Normal (e, d), w1) =>
      (Normal tt, installRetrieval (retrievalPipeline (chatModel w) e d w1) w1)
  | (Throw e, w1) => (Throw e, w1)
  end.
Proof.
  intros H. unfold setChain. generalize (initializeQAChain X options). intros init.
  unfold bind, getChatModel, read. rewrite H. cbn.
  destruct (init w) as [[[e d]|e] w1]; [|reflexivity].
  unfold installRetrieval, retrievalPipeline. cbn.
  destruct (debug (settings w1)); reflexivity.
Qed.

End SetChain.

(** *** The index-readiness step *)

Section InitializeQAChain.

Context {VS : Type}.
Variable X : Collaborators VS.

Lemma initializeQAChain_no_embeddings (options : SetChainOptions) (w : World VS) :
  embeddingsAPI w = None ->
  initializeQAChain X options w = (Throw (newError embeddingsErrorMsg), w).
Proof.
  intros H. unfold initializeQAChain, bind, getEmbeddingsAPI, read. rewrite H.
  reflexivity.
Qed.

Lemma afterIndexing_nil (v : VS) (w : World VS) :
  with_vectorStore v w = afterIndexing v [] w.
Proof. unfold with_vectorStore, afterIndexing. now rewrite app_nil_r. Qed.

Lemma afterIndexing_same (w : World VS) : w = afterIndexing (vectorStore w) [] w.
Proof. destruct w. unfold afterIndexing. simpl. now rewrite app_nil_r. Qed.

(** Whatever its outcome, the step moves only the vector store manager and
    the console. *)
Lemma initializeQAChain_frame (options : SetChainOptions) (w : World VS) :
  exists v logged,
    snd (initializeQAChain X options w) = afterIndexing v logged w /\
    forallb isConsole logged = true.
Proof.
  unfold initializeQAChain, bind, getEmbeddingsAPI, vectorStoreManager_getDb,
    vectorStoreManager_initializeDB, vectorStoreManager_indexVaultToVectorStore,
    console_warn, do_emit, read, ret, throw.
  destruct (embeddingsAPI w) as [e|] eqn:He.
  2:{ exists (vectorStore w), []. split; [apply afterIndexing_same | reflexivity]. }
  destruct (getDb X (vectorStore w)) as [d|] eqn:Hd.
  - destruct (opt_refreshIndex options) as [[|]|].
    + destruct (indexVaultToVectorStore X (vectorStore w)) as [[u|err] v] eqn:Hi;
        exists v, []; (split; [apply afterIndexing_nil | reflexivity]).
    + exists (vectorStore w), []. split; [apply afterIndexing_same | reflexivity].
    + exists (vectorStore w), []. split; [apply afterIndexing_same | reflexivity].
  - cbn. destruct (initializeDB X (vectorStore w)) as [[[d|]|err] v] eqn:Hinit; cbn.
    + destruct (opt_refreshIndex options) as [[|]|]; cbn.
      * destruct (indexVaultToVectorStore X v) as [[u|err] v'] eqn:Hi;
          eexists v', [_]; (split; [reflexivity | reflexivity]).
      * eexists v, [_]; (split; [reflexivity | reflexivity]).
      * eexists v, [_]; (split; [reflexivity | reflexivity]).
    + eexists v, [_]; (split; [reflexivity | reflexivity]).
    + eexists v, [_]; (split; [reflexivity | reflexivity]).
Qed.

(** When the step succeeds, the embeddings API is the provider's, the index
    is the loaded one or, when none was loaded, the one [initializeDB]
    returned, and the vault was indexed exactly when [refreshIndex] was
    set. *)
Lemma initializeQAChain_success (options : SetChainOptions) (w w1 : World VS)
  (e : EmbeddingsAPI) (d : Db) :
  initializeQAChain X options w = (Normal (e, d), w1) ->
  embeddingsAPI w = Some e /\
  exists v0,
    (getDb X (vectorStore w) = Some d /\ v0 = vectorStore w \/
     getDb X (vectorStore w) = None /\
     initializeDB X (vectorStore w) = (Normal (Some d), v0)) /\
    match opt_refreshIndex options with
    | Some true => indexVaultToVectorStore X v0 = (Normal tt, vectorStore w1)
    | _ => vectorStore w1 = v0
    end.
Proof.
  unfold initializeQAChain, bind, getEmbeddingsAPI, vectorStoreManager_getDb,
    vectorStoreManager_initializeDB, vectorStoreManager_indexVaultToVectorStore,
    console_warn, do_emit, read, ret, throw.
  destruct (embeddingsAPI w) as [e'|] eqn:He; [|discriminate].
  destruct (getDb X (vectorStore w)) as [d'|] eqn:Hd.
  - destruct (opt_refreshIndex options) as [[|]|].
    + destruct (indexVaultToVectorStore X (vectorStore w)) as [[[]|err] v] eqn:Hi;
        [|discriminate].
      intros [= -> -> <-]. split; [reflexivity|].
      exists (vectorStore w). split; [left; auto | exact Hi].
    + intros [= -> -> <-]. split; [reflexivity|].
      exists (vectorStore w). split; [left; auto | reflexivity].
    + intros [= -> -> <-]. split; [reflexivity|].
      exists (vectorStore w). split; [left; auto | reflexivity].
  - cbn. destruct (initializeDB X (vectorStore w)) as [[[d'|]|err] v] eqn:Hinit; cbn;
      [|discriminate|discriminate].
    destruct (opt_refreshIndex options) as [[|]|]; cbn.
    + destruct (indexVaultToVectorStore X v) as [[[]|err] v'] eqn:Hi; [|discriminate].
      intros [= -> -> <-]. split; [reflexivity|].
      exists v. split; [right; auto | exact Hi].
    + intros [= -> -> <-]. split; [reflexivity|].
      exists v. split; [right; auto | reflexivity].
    + intros [= -> -> <-]. split; [reflexivity|].
      exists v. split; [right; auto | reflexivity].
Qed.

End InitializeQAChain.

(** *** [setChain]: unusable chat model, unknown mode, missing embeddings *)

(** C1 (as the code has it).  When the registry reports the current chat
    model unusable, [setChain] writes one error line to the console and
    returns normally, whatever the chain type and the options: no notice is
    shown, no error is raised, and the active chain, the retrieval chain and
    the persisted chain type stay as they were.  The notice and the error
    come from the private method [validateChatModel], which [runChain]
    calls. *)
Theorem setChain_unusable_model_logs_and_returns
  (VS : Type) (X : Collaborators VS) (chainType : ChainTypeArg)
  (options : SetChainOptions) (w : World VS) :
  validateChatModel X (chatModel w) = false ->
  setChain X chainType options w =
    (Normal tt, emit (ConsoleError [LStr "setChain failed: No chat model set."]) w) /\
  filter isNotice (effects (snd (setChain X chainType options w))) =
    filter isNotice (effects w) /\
  untouched w (snd (setChain X chainType options w)) /\
  ChainManager_validateChatModel X w =
    (Throw (newError chatModelErrorMsg), emit (NoticeShown chatModelErrorMsg) w).
Proof.
  intros H. rewrite (setChain_unusable X chainType options w H).
  split; [reflexivity|]. split.
  - cbn. rewrite filter_app. cbn. now rewrite app_nil_r.
  - split; [repeat split|].
    unfold ChainManager_validateChatModel, bind, getChatModel, read.
    rewrite H. reflexivity.
Qed.

Lemma setChain_unusable_model_logs_and_returns_witness :
  setChain Demo.registry (CT VAULT_QA_CHAIN) noOptions Demo.fresh =
    (Normal tt,
     emit (ConsoleError [LStr "setChain failed: No chat model set."]) Demo.fresh).
Proof.
  apply (setChain_unusable_model_logs_and_returns Demo.Store Demo.registry
           (CT VAULT_QA_CHAIN) noOptions Demo.fresh).
  reflexivity.
Defined.

(** C1 (as stated) fails: in a world without usable chat model, [setChain]
    returns normally for each of the three modes and shows no notice. *)
Lemma setChain_unusable_model_no_notice_no_error :
  validateChatModel Demo.registry (chatModel Demo.fresh) = false /\
  (forall c, fst (setChain Demo.registry (CT c) noOptions Demo.fresh) = Normal tt) /\
  (forall c,
     existsb isNotice (effects (snd (setChain Demo.registry (CT c) noOptions Demo.fresh)))
     = false).
Proof.
  split; [reflexivity|]. split; intros []; reflexivity.
Qed.

(** C2 (as the code has it).  With a usable chat model, a chain type that
    is neither absent nor one of the three members makes [setChain] return
    normally and leave the world as it was: the second call of
    [validateChainType], in the [default] branch, rejects only [undefined]
    and [null].  The error about an unsupported chain type is raised by
    [getChainRunner], when a turn is dispatched with such a chain type
    persisted. *)
Theorem setChain_unknown_mode_is_noop
  (VS : Type) (X : Collaborators VS) (v : string) (options : SetChainOptions)
  (w : World VS) :
  validateChatModel X (chatModel w) = true ->
  setChain X (CT_other v) options w = (Normal tt, w) /\
  (chainType w = CT_other v ->
   getChainRunner w = (Throw (newError ("Unsupported chain type: " ++ v)%string), w)).
Proof.
  intros H. split; [now apply setChain_other|].
  intros Hc. unfold getChainRunner, bind, getChainType, read. rewrite Hc. reflexivity.
Qed.

Lemma setChain_unknown_mode_is_noop_witness :
  setChain Demo.registry (CT_other "project") noOptions
    (with_chainType (CT_other "project") Demo.ready) =
    (Normal tt, with_chainType (CT_other "project") Demo.ready) /\
  getChainRunner (with_chainType (CT_other "project") Demo.ready) =
    (Throw (newError "Unsupported chain type: project"),
     with_chainType (CT_other "project") Demo.ready).
Proof.
  destruct (setChain_unknown_mode_is_noop Demo.Store Demo.registry "project" noOptions
              (with_chainType (CT_other "project") Demo.ready) eq_refl) as [H1 H2].
  split; [exact H1 | exact (H2 eq_refl)].
Defined.

(** C2 (as stated) fails: [setChain] called with a value outside the three
    members raises nothing and changes nothing. *)
Lemma setChain_unknown_mode_raises_nothing :
  validateChatModel Demo.registry (chatModel Demo.ready) = true /\
  setChain Demo.registry (CT_other "project") noOptions Demo.ready =
    (Normal tt, Demo.ready).
Proof. split; reflexivity. Qed.

(** C4.  When the embeddings provider has no API, [initializeQAChain]
    raises its initialization error and leaves the world as it was;
    [setChain] called for the vault QA mode leaves the retrieval chain, as
    [getRetrievalChain] returns it, as it was, and, the chat model being
    usable, ends with that same error and the world unchanged. *)
Theorem setChain_VAULT_QA_without_embeddings
  (VS : Type) (X : Collaborators VS) (options : SetChainOptions) (w : World VS) :
  embeddingsAPI w = None ->
  initializeQAChain X options w = (Throw (newError embeddingsErrorMsg), w) /\
  getRetrievalChain (snd (setChain X (CT VAULT_QA_CHAIN) options w)) =
    getRetrievalChain w /\
  (validateChatModel X (chatModel w) = true ->
   setChain X (CT VAULT_QA_CHAIN) options w = (Throw (newError embeddingsErrorMsg), w)).
Proof.
  intros He.
  pose proof (initializeQAChain_no_embeddings X options w He) as Hinit.
  split; [exact Hinit|].
  destruct (validateChatModel X (chatModel w)) eqn:Hv.
  - rewrite (setChain_VAULT X options w Hv), Hinit. split; [reflexivity | auto].
  - rewrite (setChain_unusable X _ options w Hv). split; [reflexivity | discriminate].
Qed.

Lemma setChain_VAULT_QA_without_embeddings_witness :
  setChain Demo.registry (CT VAULT_QA_CHAIN) noOptions Demo.afterVaultQA =
    (Throw (newError embeddingsErrorMsg), Demo.afterVaultQA) /\
  getRetrievalChain
    (snd (setChain Demo.registry (CT VAULT_QA_CHAIN) noOptions Demo.afterVaultQA)) =
    Some Demo.oldRetrievalChain.
Proof.
  destruct (setChain_VAULT_QA_without_embeddings Demo.Store Demo.registry noOptions
              Demo.afterVaultQA eq_refl) as (_ & H2 & H3).
  split; [exact (H3 eq_refl) | exact H2].
Defined.

(** *** [setChain]: the agentic mode *)

(** C8.  With a usable chat model, [setChain] called for the agentic mode
    runs the index-readiness step [initializeQAChain], the very step the
    vault QA mode runs; when the step raises, so does [setChain]; when it
    succeeds, [setChain] builds the plain pipeline from the chat model, the
    memory and the prompt ([options.prompt] when given, the prompt
    builder's otherwise), assigns it as the active chain and persists the
    agentic mode.  The step, when it succeeds, has taken the embeddings API
    of the provider, has initialized the index only when none was loaded,
    and has indexed the vault exactly when [refreshIndex] was set. *)
Theorem setChain_COPILOT_PLUS_prepares_index_and_chain
  (VS : Type) (X : Collaborators VS) (options : SetChainOptions) (w : World VS) :
  validateChatModel X (chatModel w) = true ->
  let p := createNewLLMChain (chatModel w) TheMemory (promptOr options (chatPrompt w))
             (opt_abortController options) in
  setChain X (CT COPILOT_PLUS_CHAIN) options w =
    match initializeQAChain X options w with
    | (Normal _, w1) => (Normal tt, installPlain COPILOT_PLUS_CHAIN p w1)
    | (Throw e, w1) => (Throw e, w1)
    end /\
  setChain X (CT VAULT_QA_CHAIN) options w =
    match initializeQAChain X options w with
    | (Normal (e, d), w1) =>
        (Normal tt, installRetrieval (retrievalPipeline (chatModel w) e d w1) w1)
    | (Throw e, w1) => (Throw e, w1)
    end /\
  (forall e d w1,
     initializeQAChain X options w = (Normal (e, d), w1) ->
     getChain (snd (setChain X (CT COPILOT_PLUS_CHAIN) options w)) = Some p /\
     chainType (snd (setChain X (CT COPILOT_PLUS_CHAIN) options w)) =
       CT COPILOT_PLUS_CHAIN /\
     embeddingsAPI w = Some e /\
     exists v0,
       (getDb X (vectorStore w) = Some d /\ v0 = vectorStore w \/
        getDb X (vectorStore w) = None /\
        initializeDB X (vectorStore w) = (Normal (Some d), v0)) /\
       match opt_refreshIndex options with
       | Some true => indexVaultToVectorStore X v0 = (Normal tt, vectorStore w1)
       | _ => vectorStore w1 = v0
       end).
Proof.
  intros Hv p.
  split; [exact (setChain_PLUS X options w Hv)|].
  split; [exact (setChain_VAULT X options w Hv)|].
  intros e d w1 Hinit.
  rewrite (setChain_PLUS X options w Hv), Hinit.
  split; [reflexivity|]. split; [reflexivity|].
  exact (initializeQAChain_success X options w w1 e d Hinit).
Qed.

Lemma setChain_COPILOT_PLUS_prepares_index_and_chain_witness :
  getChain (snd (setChain Demo.registry (CT COPILOT_PLUS_CHAIN) noOptions Demo.equipped)) =
    Some (createNewLLMChain (Demo.handleOf Demo.gpt4o) TheMemory Demo.defaultPrompt None) /\
  getDb Demo.registry
    (vectorStore (snd (setChain Demo.registry (CT COPILOT_PLUS_CHAIN) noOptions Demo.equipped)))
    = Some (IndexHandle 1).
Proof.
  destruct (setChain_COPILOT_PLUS_prepares_index_and_chain Demo.Store Demo.registry
              noOptions Demo.equipped eq_refl) as (_ & _ & H).
  destruct (H (EmbeddingsHandle 2) (IndexHandle 1)
              (afterIndexing (Some (IndexHandle 1), 0%nat)
                 [ConsoleWarn [LStr "Copilot index is not loaded. Reinitializing..."]]
                 Demo.equipped) eq_refl) as (H1 & _).
  split; [exact H1 | reflexivity].
Defined.

(** *** [setChain] and the memory store *)

Lemma initializeQAChain_memory (VS : Type) (X : Collaborators VS)
  (options : SetChainOptions) (m : list (string * string)) (w : World VS) :
  initializeQAChain X options (with_memory m w) =
  (fst (initializeQAChain X options w), with_memory m (snd (initializeQAChain X options w))).
Proof.
  unfold initializeQAChain, bind, getEmbeddingsAPI, vectorStoreManager_getDb,
    vectorStoreManager_initializeDB, vectorStoreManager_indexVaultToVectorStore,
    console_warn, do_emit, read, ret, throw.
  destruct w as [c rc ct mk st sp cm cp mem0 emb vs0 va bc eff]; simpl.
  destruct emb as [e|]; [|reflexivity]. simpl.
  destruct (getDb X vs0) as [d|]; simpl.
  - destruct (opt_refreshIndex options) as [[|]|]; simpl; try reflexivity.
    destruct (indexVaultToVectorStore X vs0) as [[u|err] v]; reflexivity.
  - destruct (initializeDB X vs0) as [[[d|]|err] v]; simpl; try reflexivity.
    destruct (opt_refreshIndex options) as [[|]|]; simpl; try reflexivity.
    destruct (indexVaultToVectorStore X v) as [[u|err] v']; reflexivity.
Qed.

(** C9.  For every chain type and all options, the memory holds after
    [setChain] exactly the pairs it held before, and [setChain] does not
    depend on them: run in a world that differs only by the contents of the
    memory, it ends the same way, in the same world up to those contents. *)
Theorem setChain_frames_memory
  (VS : Type) (X : Collaborators VS) (chainType : ChainTypeArg)
  (options : SetChainOptions) (w : World VS) :
  memory (snd (setChain X chainType options w)) = memory w /\
  (forall m,
     setChain X chainType options (with_memory m w) =
     (fst (setChain X chainType options w),
      with_memory m (snd (setChain X chainType options w)))).
Proof.
  destruct (validateChatModel X (chatModel w)) eqn:Hv.
  2:{ split; [| intros m]; rewrite !setChain_unusable by exact Hv; reflexivity. }
  destruct chainType as [| | [| |] | v].
  - split; [| intros m]; rewrite !setChain_no_type by auto; reflexivity.
  - split; [| intros m]; rewrite !setChain_no_type by auto; reflexivity.
  - split; [| intros m]; rewrite !setChain_LLM by exact Hv; reflexivity.
  - split; [| intros m]; rewrite !setChain_VAULT by exact Hv.
    + destruct (initializeQAChain_frame X options w) as (v & logged & Hw & _).
      destruct (initializeQAChain X options w) as [[[e d]|err] w1];
        cbn in Hw; subst w1; [|reflexivity].
      cbn. unfold installRetrieval. destruct (debug _); reflexivity.
    + rewrite initializeQAChain_memory.
      destruct (initializeQAChain X options w) as [[[e d]|err] w1]; [|reflexivity].
      cbn. unfold installRetrieval. cbn. destruct (debug _); reflexivity.
  - split; [| intros m]; rewrite !setChain_PLUS by exact Hv.
    + destruct (initializeQAChain_frame X options w) as (v & logged & Hw & _).
      destruct (initializeQAChain X options w) as [[[e d]|err] w1];
        cbn in Hw; subst w1; reflexivity.
    + rewrite initializeQAChain_memory.
      destruct (initializeQAChain X options w) as [[[e d]|err] w1]; reflexivity.
  - split; [| intros m]; rewrite !setChain_other by exact Hv; reflexivity.
Qed.

(** *** [setChain]: order of the writes *)

Lemma untouched_afterIndexing (VS : Type) (v : VS) (logged : list Effect) (w : World VS) :
  untouched w (afterIndexing v logged w).
Proof. repeat split. Qed.

(** The trace of a run of [setChain]. *)
Lemma setChain_trace
  (VS : Type) (X : Collaborators VS) (chainType' : ChainTypeArg)
  (options : SetChainOptions) (w : World VS) :
  let r := setChain X chainType' options w in
  exists added,
     effects (snd r) = effects w ++ added /\
     ((untouched w (snd r) /\ forallb isConsole added = true) \/
      (exists c pre post a,
         chainType' = CT c /\
         validateChatModel X (chatModel w) = true /\
         fst r = Normal tt /\
         added = pre ++ [a; ChainTypePersisted c] ++ post /\
         forallb isConsole pre = true /\ forallb isConsole post = true /\
         pipelineAssigned c a (snd r) /\
         chainType (snd r) = CT c)).
Proof.
  intros r.
  subst r. destruct (validateChatModel X (chatModel w)) eqn:Hv.
    2:{ rewrite setChain_unusable by exact Hv. eexists [_]. split; [reflexivity|].
        left. repeat split. }
    destruct chainType' as [| | [| |] | v].
    - rewrite setChain_no_type by auto. exists []. split; [now rewrite app_nil_r|].
      left. repeat split.
    - rewrite setChain_no_type by auto. exists []. split; [now rewrite app_nil_r|].
      left. repeat split.
    - rewrite setChain_LLM by exact Hv.
      eexists [_; _]. split; [cbn; rewrite <- app_assoc; reflexivity|].
      right. exists LLM_CHAIN, [], [], (ChainAssigned (plainPipeline options w)).
      repeat split. cbn. eauto.
    - rewrite setChain_VAULT by exact Hv.
      destruct (initializeQAChain_frame X options w) as (v & logged & Hw & Hlogged).
      destruct (initializeQAChain X options w) as [[[e d]|err] w1];
        cbn in Hw; subst w1.
      + set (p := retrievalPipeline (chatModel w) e d (afterIndexing v logged w)).
        exists (logged ++ [RetrievalChainAssigned p; ChainTypePersisted VAULT_QA_CHAIN]
                  ++ (if debug (settings w) then debugLines else [])).
        split.
        * cbn. unfold installRetrieval. cbn. fold p.
          destruct (debug (settings w)); cbn; rewrite <- ?app_assoc; reflexivity.
        * right.
          exists VAULT_QA_CHAIN, logged, (if debug (settings w) then debugLines else []),
            (RetrievalChainAssigned p).
          split; [reflexivity|]. split; [reflexivity|]. split; [reflexivity|].
          split; [reflexivity|]. split; [exact Hlogged|].
          split; [destruct (debug (settings w)); reflexivity|].
          cbn. unfold installRetrieval. cbn. fold p.
          destruct (debug (settings w)); cbn; eauto.
      + exists logged. split; [reflexivity|]. left.
        split; [apply untouched_afterIndexing | exact Hlogged].
    - rewrite setChain_PLUS by exact Hv.
      destruct (initializeQAChain_frame X options w) as (v & logged & Hw & Hlogged).
      destruct (initializeQAChain X options w) as [[[e d]|err] w1];
        cbn in Hw; subst w1.
      + exists (logged ++ [ChainAssigned (plainPipeline options w);
                           ChainTypePersisted COPILOT_PLUS_CHAIN] ++ []).
        split; [cbn; rewrite <- !app_assoc; reflexivity|].
        right.
        exists COPILOT_PLUS_CHAIN, logged, [], (ChainAssigned (plainPipeline options w)).
        split; [reflexivity|]. split; [reflexivity|]. split; [reflexivity|].
        split; [reflexivity|]. split; [exact Hlogged|]. split; [reflexivity|].
        cbn. eauto.
      + exists logged. split; [reflexivity|]. left.
        split; [apply untouched_afterIndexing | exact Hlogged].
    - rewrite setChain_other by exact Hv. exists []. split; [now rewrite app_nil_r|].
      left. repeat split.
Qed.

Lemma setChain_appends
  (VS : Type) (X : Collaborators VS) (chainType' : ChainTypeArg)
  (options : SetChainOptions) (w : World VS) :
  exists added, effects (snd (setChain X chainType' options w)) = effects w ++ added.
Proof.
  destruct (setChain_trace VS X chainType' options w) as (added & H & _).
  exists added. exact H.
Qed.

(** C10.  Every run of [setChain] either leaves the active chain, the
    retrieval chain and the persisted chain type as they were and adds
    console lines only, or is a completed switch to one of the three modes:
    then what it adds to the trace is console lines, the write of the new
    pipeline of that mode, directly followed by the write of the persisted
    chain type, and console lines again; no chain type is persisted before
    the pipeline is assigned.  Every early exit (unusable chat model,
    absent chain type, any raised error) is of the first kind. *)
Theorem setChain_persists_type_after_assignment
  (VS : Type) (X : Collaborators VS) (chainType' : ChainTypeArg)
  (options : SetChainOptions) (w : World VS) :
  let r := setChain X chainType' options w in
  (exists added,
     effects (snd r) = effects w ++ added /\
     ((untouched w (snd r) /\ forallb isConsole added = true) \/
      (exists c pre post a,
         chainType' = CT c /\
         validateChatModel X (chatModel w) = true /\
         fst r = Normal tt /\
         added = pre ++ [a; ChainTypePersisted c] ++ post /\
         forallb isConsole pre = true /\ forallb isConsole post = true /\
         pipelineAssigned c a (snd r) /\
         chainType (snd r) = CT c))) /\
  (validateChatModel X (chatModel w) = false \/
   chainType' = CT_undefined \/ chainType' = CT_null \/
   (exists e, fst r = Throw e) ->
   untouched w (snd r)).
Proof.
  intros r.
  pose proof (setChain_trace VS X chainType' options w) as H.
  fold r in H.
  split; [exact H|].
  intros Hexit.
  destruct H as (added & _ & [[U _] | (c & pre & post & a & Hc & Hv & Hr & _)]);
    [exact U|].
  exfalso. destruct Hexit as [Hx | [Hx | [Hx | [e Hx]]]]; congruence.
Qed.

Lemma setChain_persists_type_after_assignment_witness :
  untouched Demo.afterVaultQA
    (snd (setChain Demo.registry (CT VAULT_QA_CHAIN) noOptions Demo.afterVaultQA)).
Proof.
  apply (setChain_persists_type_after_assignment Demo.Store Demo.registry
           (CT VAULT_QA_CHAIN) noOptions Demo.afterVaultQA).
  right. right. right. eexists. reflexivity.
Defined.

(** *** What [setChain] leaves alone *)

Section SetChainFrame.

Context {VS : Type}.
Variable X : Collaborators VS.

Lemma setChain_keeps_registry (chainType : ChainTypeArg) (options : SetChainOptions)
  (w : World VS) :
  chatModel (snd (setChain X chainType options w)) = chatModel w /\
  systemPrompt (snd (setChain X chainType options w)) = systemPrompt w.
Proof.
  destruct (validateChatModel X (chatModel w)) eqn:Hv.
  2:{ rewrite setChain_unusable by exact Hv. split; reflexivity. }
  destruct chainType as [| | [| |] | v].
  - rewrite setChain_no_type by auto. split; reflexivity.
  - rewrite setChain_no_type by auto. split; reflexivity.
  - rewrite setChain_LLM by exact Hv. split; reflexivity.
  - rewrite setChain_VAULT by exact Hv.
    destruct (initializeQAChain_frame X options w) as (v & logged & Hw & _).
    destruct (initializeQAChain X options w) as [[[e d]|err] w1];
      cbn in Hw; subst w1; [|split; reflexivity].
    cbn. unfold installRetrieval. destruct (debug _); split; reflexivity.
  - rewrite setChain_PLUS by exact Hv.
    destruct (initializeQAChain_frame X options w) as (v & logged & Hw & _).
    destruct (initializeQAChain X options w) as [[[e d]|err] w1];
      cbn in Hw; subst w1; split; reflexivity.
  - rewrite setChain_other by exact Hv. split; reflexivity.
Qed.

(** Rebuilding the pipeline of the persisted mode persists that mode. *)
Lemma setChain_current_type (options : SetChainOptions) (w : World VS) :
  chainType (snd (setChain X (chainType w) options w)) = chainType w.
Proof.
  destruct (validateChatModel X (chatModel w)) eqn:Hv.
  2:{ rewrite setChain_unusable by exact Hv. reflexivity. }
  destruct (chainType w) as [| | [| |] | v] eqn:Hc.
  - rewrite setChain_no_type by auto. exact Hc.
  - rewrite setChain_no_type by auto. exact Hc.
  - rewrite setChain_LLM by exact Hv. reflexivity.
  - rewrite setChain_VAULT by exact Hv.
    destruct (initializeQAChain_frame X options w) as (v & logged & Hw & _).
    destruct (initializeQAChain X options w) as [[[e d]|err] w1];
      cbn in Hw; subst w1; [|exact Hc].
    cbn. unfold installRetrieval. destruct (debug _); reflexivity.
  - rewrite setChain_PLUS by exact Hv.
    destruct (initializeQAChain_frame X options w) as (v & logged & Hw & _).
    destruct (initializeQAChain X options w) as [[[e d]|err] w1];
      cbn in Hw; subst w1; [reflexivity | exact Hc].
  - rewrite setChain_other by exact Hv. exact Hc.
Qed.

(** *** Calls of [setChain] that are not awaited *)


Lemma initializeQAChain_call_world (options : SetChainOptions) (w : World VS) :
  exists logged,
    snd (initializeQAChain_call X options w) = afterIndexing (vectorStore w) logged w /\
    forallb isConsole logged = true.
Proof.
  unfold initializeQAChain_call.
  destruct (embeddingsAPI w) as [e|].
  2:{ exists []. split; [apply afterIndexing_same | reflexivity]. }
  destruct (getDb X (vectorStore w)) as [d|].
  - destruct (opt_refreshIndex options) as [[|]|];
      (exists []; split; [apply afterIndexing_same | reflexivity]).
  - eexists [_]. split; reflexivity.
Qed.


(** Outside the two modes that await, and with an unusable chat model, a
    started call is over. *)
Lemma setChain_call_settles (chainType : ChainTypeArg) (options : SetChainOptions)
  (w : World VS) :
  validateChatModel X (chatModel w) = false \/
  (chainType <> CT VAULT_QA_CHAIN /\ chainType <> CT COPILOT_PLUS_CHAIN) ->
  setChain_call X chainType options w =
  (Settled (fst (setChain X chainType options w)), snd (setChain X chainType options w)).
Proof.
  intros H. unfold setChain_call.
  destruct (validateChatModel X (chatModel w)) eqn:Hv; cbn [negb].
  2:{ destruct (setChain X chainType options w) as [r w']. reflexivity. }
  destruct H as [H | [H1 H2]]; [discriminate|].
  destruct chainType as [| | [| |] | v]; try congruence;
    destruct (setChain X _ options w) as [r w']; reflexivity.
Qed.

(** In the two modes that await, with a usable chat model, a started call
    is suspended; it has written console lines at most. *)
Lemma setChain_call_suspends (chainType : ChainTypeArg) (options : SetChainOptions)
  (w : World VS) :
  validateChatModel X (chatModel w) = true ->
  chainType = CT VAULT_QA_CHAIN \/ chainType = CT COPILOT_PLUS_CHAIN ->
  exists rest logged,
    setChain_call X chainType options w =
      (Suspended rest, afterIndexing (vectorStore w) logged w) /\
    forallb isConsole logged = true.
Proof.
  intros Hv Hc. unfold setChain_call. rewrite Hv. cbn [negb].
  destruct (initializeQAChain_call_world options w) as (logged & Hw & Hl).
  destruct Hc as [-> | ->];
    destruct (initializeQAChain_call X options w) as [started w'];
    cbn in Hw; subst w'; eexists; exists logged; split; [reflexivity | exact Hl | reflexivity | exact Hl].
Qed.

(** The world a started call leaves to its caller. *)
Lemma setChain_call_frame (chainType' : ChainTypeArg) (options : SetChainOptions)
  (w : World VS) :
  chatModel (snd (setChain_call X chainType' options w)) = chatModel w /\
  systemPrompt (snd (setChain_call X chainType' options w)) = systemPrompt w /\
  (chainType' = chainType w ->
   chainType (snd (setChain_call X chainType' options w)) = chainType w) /\
  exists added, effects (snd (setChain_call X chainType' options w)) = effects w ++ added.
Proof.
  destruct (validateChatModel X (chatModel w)) eqn:Hv.
  - assert (Hcases : (chainType' = CT VAULT_QA_CHAIN \/ chainType' = CT COPILOT_PLUS_CHAIN) \/
                     (chainType' <> CT VAULT_QA_CHAIN /\ chainType' <> CT COPILOT_PLUS_CHAIN)).
    { destruct chainType' as [| | [| |] | v]; try (right; split; discriminate);
        left; auto. }
    destruct Hcases as [Hc | Hc].
    + destruct (setChain_call_suspends chainType' options w Hv Hc)
        as (rest & logged & -> & _).
      cbn. repeat split. exists logged. reflexivity.
    + rewrite setChain_call_settles by auto. cbn [snd].
      destruct (setChain_keeps_registry chainType' options w) as [H1 H2].
      split; [exact H1|]. split; [exact H2|]. split.
      * intros ->. apply setChain_current_type.
      * apply setChain_appends.
  - rewrite setChain_call_settles by auto. cbn [snd].
    destruct (setChain_keeps_registry chainType' options w) as [H1 H2].
    split; [exact H1|]. split; [exact H2|]. split.
    + intros ->. apply setChain_current_type.
    + apply setChain_appends.
Qed.

(** [validateChainInitialization] returns normally and leaves the registry,
    the system prompt and the persisted chain type as they were. *)
Lemma validateChainInitialization_frame (w : World VS) :
  fst (validateChainInitialization X w) = Normal tt /\
  chatModel (snd (validateChainInitialization X w)) = chatModel w /\
  systemPrompt (snd (validateChainInitialization X w)) = systemPrompt w /\
  chainType (snd (validateChainInitialization X w)) = chainType w.
Proof.
  unfold validateChainInitialization.
  generalize (setChain_call_frame). generalize (setChain_call X). intros sc Hframe.
  unfold bind, read, getChainType, console_error, do_emit, not_awaited, ret.
  destruct (negb _); [|repeat split].
  cbn.
  set (w1 := emit _ w).
  destruct (Hframe (chainType w) noOptions w1) as (H1 & H2 & H3 & _).
  repeat split; try assumption. exact (H3 eq_refl).
Qed.

End SetChainFrame.

(** *** [createChainWithNewModel] *)




(** *** [runChain]: prompts without system message *)

Lemma startsWith_o1 (s : string) :
  startsWith s "o1" = true <-> exists rest, s = ("o1" ++ rest)%string.
Proof.
  unfold startsWith. split.
  - destruct s as [|a [|b rest]]; cbn [String.prefix]; try discriminate.
    + destruct (ascii_dec "o" a); discriminate.
    + destruct (ascii_dec "o" a) as [<-|]; [|discriminate].
      destruct (ascii_dec "1" b) as [<-|]; [|discriminate].
      intros _. exists rest. reflexivity.
  - intros [rest ->]. cbn [append String.prefix].
    destruct (ascii_dec "o" "o"); [|congruence].
    destruct (ascii_dec "1" "1"); [|congruence].
    destruct rest; reflexivity.
Qed.

Lemma getChainRunner_reads (VS : Type) (w : World VS) : snd (getChainRunner w) = w.
Proof.
  unfold getChainRunner, bind, getChainType, read.
  destruct (chainType w) as [| | [| |] |]; reflexivity.
Qed.

Lemma isO1_reasoningOnly (m : ChatModel) : isO1 m = true <-> reasoningOnly m.
Proof.
  unfold isO1, reasoningOnly. rewrite startsWith_o1.
  destruct m as [[[|c r]|] [[|c' r']|]]; cbn; split.
  all: try (intros [rest H]; discriminate H).
  all: try (intros [rest [H | [_ H]]]; discriminate H).
  - intros [rest H]. exists rest. right. split; [now right | now rewrite H].
  - intros [rest [H | [_ H]]]; [discriminate|]. exists rest. congruence.
  - intros [rest H]. exists rest. left. now rewrite H.
  - intros [rest [H | [[H' | H'] _]]]; try discriminate. exists rest. congruence.
  - intros [rest H]. exists rest. left. now rewrite H.
  - intros [rest [H | [[H' | H'] _]]]; try discriminate. exists rest. congruence.
  - intros [rest H]. exists rest. left. now rewrite H.
  - intros [rest [H | [[H' | H'] _]]]; try discriminate. exists rest. congruence.
  - intros [rest H]. exists rest. right. split; [now left | now rewrite H].
  - intros [rest [H | [_ H]]]; [discriminate|]. exists rest. congruence.
Qed.

(** The prompt [runChain] builds, or the error of the template parser. *)
Lemma effectivePrompt_eq (VS : Type) (isO1Model : bool) (w : World VS) :
  effectivePrompt isO1Model w =
  ((if isO1Model then
      match templateError (systemPrompt w) with
      | Some e => Throw e
      | None => Normal (promptWithAssistant (systemPrompt w))
      end
    else Normal promptWithoutSystem), w).
Proof.
  unfold effectivePrompt, bind, lift, getSystemPrompt, read, ret.
  cbn. destruct isO1Model; [|reflexivity].
  replace (orEmpty (systemPrompt w)) with (systemPrompt w)
    by (destruct (systemPrompt w); reflexivity).
  unfold fromMessages. cbn.
  destruct (templateError (systemPrompt w)); reflexivity.
Qed.

(** The world of [runChain] after its optional debug line. *)
Lemma runChain_debug_line (VS : Type) (userMessage : ChatMessage) (options : RunOptions)
  (w : World VS) :
  exists wd,
    (if orFalse (run_debug options)
     then console_log
            [LStr ("==== Step 0: Initial user message ====" ++ String "010"%char EmptyString);
             LMessage userMessage]
     else @ret VS unit tt) w = (Normal tt, wd) /\
    (exists logged, wd = afterIndexing (vectorStore w) logged w /\
                    forallb isConsole logged = true).
Proof.
  destruct (orFalse (run_debug options)).
  - eexists. split; [reflexivity|]. eexists [_]. split; reflexivity.
  - exists w. split; [reflexivity|]. exists []. split; [apply afterIndexing_same | reflexivity].
Qed.

Lemma validateChainInitialization_suspended (VS : Type) (X : Collaborators VS)
  (w : World VS) :
  validateChatModel X (chatModel w) = true ->
  chainType w = CT VAULT_QA_CHAIN \/ chainType w = CT COPILOT_PLUS_CHAIN ->
  untouched w (snd (validateChainInitialization X w)).
Proof.
  intros Hv Hc. unfold validateChainInitialization.
  generalize (setChain_call_suspends X). generalize (setChain_call X). intros sc Hsus.
  unfold bind, read, getChainType, console_error, do_emit, not_awaited, ret.
  destruct (negb _); [|repeat split].
  cbn.
  set (w1 := emit _ w).
  destruct (Hsus (chainType w) noOptions w1 Hv Hc) as (rest & logged & -> & _).
  repeat split.
Qed.

(** With a usable chat model, [runChain] is: the debug line, the check of
    the active chain, the optional construction of the prompt without
    system message and the call of [setChain] with it, and the choice of the
    runner. *)
Lemma runChain_steps (VS : Type) (X : Collaborators VS) (userMessage : ChatMessage)
  (options : RunOptions) (w : World VS) :
  validateChatModel X (chatModel w) = true ->
  exists w0,
    chatModel w0 = chatModel w /\ systemPrompt w0 = systemPrompt w /\
    chainType w0 = chainType w /\
    (chainType w = CT VAULT_QA_CHAIN \/ chainType w = CT COPILOT_PLUS_CHAIN ->
     untouched w w0) /\
    runChain X userMessage options w =
      if orFalse (run_ignoreSystemMessage options) || isO1 (chatModel w) then
        match (if isO1 (chatModel w) then templateError (systemPrompt w) else None) with
        | Some e => (Throw e, w0)
        | None =>
            getChainRunner
              (snd (setChain_call X (chainType w)
                      (promptOnly
                         (if isO1 (chatModel w) then promptWithAssistant (systemPrompt w)
                          else promptWithoutSystem))
                      w0))
        end
      else getChainRunner w0.
Proof.
  intros Hv.
  destruct (runChain_debug_line VS userMessage options w)
    as (wd & Hd & logged & Hwd & _).
  assert (Hd1 : chatModel wd = chatModel w) by (subst wd; reflexivity).
  assert (Hd2 : systemPrompt wd = systemPrompt w) by (subst wd; reflexivity).
  assert (Hd3 : chainType wd = chainType w) by (subst wd; reflexivity).
  assert (Hd4 : untouched w wd) by (subst wd; repeat split).
  clear Hwd.
  destruct (validateChainInitialization_frame X wd) as (Hi0 & Hi1 & Hi2 & Hi3).
  pose proof (validateChainInitialization_suspended VS X wd) as Hi4.
  exists (snd (validateChainInitialization X wd)).
  split; [congruence|]. split; [congruence|]. split; [congruence|]. split.
  { intros Hc. rewrite <- Hd3 in Hc. rewrite <- Hd1 in Hv.
    destruct (Hi4 Hv Hc) as (U1 & U2 & U3). destruct Hd4 as (V1 & V2 & V3).
    repeat split; congruence. }
  clear Hi4 Hd4.
  unfold runChain. generalize (setChain_call X). intros sc.
  unfold bind at 1. unfold bind at 1. rewrite Hd.
  unfold bind at 1. unfold bind at 1.
  unfold ChainManager_validateChatModel at 1. unfold bind at 1.
  unfold getChatModel at 1, read at 1. rewrite Hd1, Hv. cbn [negb ret].
  unfold bind at 1. unfold bind at 1.
  destruct (validateChainInitialization X wd) as [r0 w0] eqn:Hvi.
  cbn in Hi0, Hi1, Hi2, Hi3. subst r0. cbn [snd].
  unfold bind at 1. unfold getChatModel at 1, read at 1.
  rewrite Hi1, Hd1.
  destruct (orFalse (run_ignoreSystemMessage options) || isO1 (chatModel w)).
  - rewrite effectivePrompt_eq. rewrite Hi2, Hd2.
    destruct (isO1 (chatModel w)).
    + destruct (templateError (systemPrompt w)) as [e|]; [reflexivity|].
      unfold getChainType, read, not_awaited, promptOnly.
      rewrite Hi3, Hd3. reflexivity.
    + unfold getChainType, read, not_awaited, promptOnly.
      rewrite Hi3, Hd3. reflexivity.
  - reflexivity.
Qed.

Lemma orFalse_true (b : option bool) : orFalse b = true <-> b = Some true.
Proof. destruct b as [[|]|]; cbn; split; congruence. Qed.




Example isO1_examples :
  isO1 Demo.o1preview = true /\
  isO1 {| modelName := None; model := Some "o1-mini" |} = true /\
  isO1 (Demo.handleOf Demo.gpt4o) = false /\
  isO1 Demo.noModel = false.
Proof. repeat split. Qed.

(** ** Further properties of [ChainManager] *)

Section SetChainMore.

Context {VS : Type}.
Variable X : Collaborators VS.


(** [setChain] replaces one pipeline at most: called for the vault QA mode
    it leaves the active chain as it was, called with anything else it
    leaves the retrieval chain as it was. *)
Theorem setChain_replaces_one_pipeline
  (chainType' : ChainTypeArg) (options : SetChainOptions) (w : World VS) :
  (chainType' = CT VAULT_QA_CHAIN ->
   getChain (snd (setChain X chainType' options w)) = getChain w) /\
  (chainType' <> CT VAULT_QA_CHAIN ->
   getRetrievalChain (snd (setChain X chainType' options w)) = getRetrievalChain w).
Proof.
  destruct (validateChatModel X (chatModel w)) eqn:Hv.
  2:{ rewrite setChain_unusable by exact Hv. split; reflexivity. }
  destruct chainType' as [| | [| |] | v].
  - rewrite setChain_no_type by auto. split; reflexivity.
  - rewrite setChain_no_type by auto. split; reflexivity.
  - rewrite setChain_LLM by exact Hv. split; [discriminate | reflexivity].
  - rewrite setChain_VAULT by exact Hv. split; [|congruence]. intros _.
    destruct (initializeQAChain_frame X options w) as (v & logged & Hw & _).
    destruct (initializeQAChain X options w) as [[[e d]|err] w1];
      cbn in Hw; subst w1; [|reflexivity].
    cbn. unfold installRetrieval. destruct (debug _); reflexivity.
  - rewrite setChain_PLUS by exact Hv. split; [discriminate|]. intros _.
    destruct (initializeQAChain_frame X options w) as (v & logged & Hw & _).
    destruct (initializeQAChain X options w) as [[[e d]|err] w1];
      cbn in Hw; subst w1; reflexivity.
  - rewrite setChain_other by exact Hv. split; [discriminate | reflexivity].
Qed.

(** The plain chat mode needs neither embeddings nor index: with a usable
    chat model [setChain] succeeds whatever the embeddings provider and the
    options say, and leaves the vector store manager alone, also when
    [refreshIndex] is set. *)
Theorem setChain_LLM_needs_no_index (options : SetChainOptions) (w : World VS) :
  validateChatModel X (chatModel w) = true ->
  fst (setChain X (CT LLM_CHAIN) options w) = Normal tt /\
  vectorStore (snd (setChain X (CT LLM_CHAIN) options w)) = vectorStore w /\
  getChain (snd (setChain X (CT LLM_CHAIN) options w)) =
    Some (createNewLLMChain (chatModel w) TheMemory (promptOr options (chatPrompt w))
            (opt_abortController options)) /\
  chainType (snd (setChain X (CT LLM_CHAIN) options w)) = CT LLM_CHAIN.
Proof.
  intros Hv. rewrite setChain_LLM by exact Hv. repeat split.
Qed.

(** When no index is loaded and [initializeDB] returns none, the
    index-readiness step warns, raises the database error and does not
    index the vault, also when [refreshIndex] is set; [setChain] for the
    vault QA and the agentic mode then ends with that error and leaves both
    pipelines and the persisted chain type as they were. *)
Theorem initializeQAChain_database_failure
  (options : SetChainOptions) (w : World VS) (e : EmbeddingsAPI) (v : VS) :
  embeddingsAPI w = Some e ->
  getDb X (vectorStore w) = None ->
  initializeDB X (vectorStore w) = (Normal None, v) ->
  let w1 :=
    afterIndexing v [ConsoleWarn [LStr "Copilot index is not loaded. Reinitializing..."]] w in
  initializeQAChain X options w = (Throw (newError databaseErrorMsg), w1) /\
  (validateChatModel X (chatModel w) = true ->
   setChain X (CT VAULT_QA_CHAIN) options w = (Throw (newError databaseErrorMsg), w1) /\
   setChain X (CT COPILOT_PLUS_CHAIN) options w = (Throw (newError databaseErrorMsg), w1)) /\
  untouched w w1.
Proof.
  intros He Hd Hi w1.
  assert (Hinit : initializeQAChain X options w = (Throw (newError databaseErrorMsg), w1)).
  { unfold initializeQAChain, bind, getEmbeddingsAPI, vectorStoreManager_getDb,
      vectorStoreManager_initializeDB, console_warn, do_emit, read, ret, throw.
    rewrite He, Hd. cbn. rewrite Hi. reflexivity. }
  split; [exact Hinit|]. split; [|repeat split].
  intros Hv. rewrite setChain_VAULT, setChain_PLUS by exact Hv. rewrite Hinit.
  split; reflexivity.
Qed.

(** The index is initialized lazily: when one is loaded, the outcome of the
    index-readiness step does not depend on what [initializeDB] would
    do. *)
Theorem initializeQAChain_initializes_lazily
  (f : VS -> Completion (option Db) * VS) (options : SetChainOptions)
  (w : World VS) (d : Db) :
  getDb X (vectorStore w) = Some d ->
  initializeQAChain (withInitializeDB f X) options w = initializeQAChain X options w.
Proof.
  intros Hd.
  unfold initializeQAChain, bind, getEmbeddingsAPI, vectorStoreManager_getDb,
    vectorStoreManager_initializeDB, vectorStoreManager_indexVaultToVectorStore,
    console_warn, do_emit, read, ret, throw.
  destruct (embeddingsAPI w); [|reflexivity].
  cbn. rewrite Hd. reflexivity.
Qed.

(** After a completed switch to a mode, a turn is dispatched to the runner
    of that mode. *)
Theorem getChainRunner_after_setChain
  (c : ChainType) (options : SetChainOptions) (w : World VS) :
  validateChatModel X (chatModel w) = true ->
  fst (setChain X (CT c) options w) = Normal tt ->
  getChainRunner (snd (setChain X (CT c) options w)) =
    (Normal (runnerOf c), snd (setChain X (CT c) options w)).
Proof.
  intros Hv. destruct c.
  - rewrite setChain_LLM by exact Hv. reflexivity.
  - rewrite setChain_VAULT by exact Hv.
    destruct (initializeQAChain_frame X options w) as (v & logged & Hw & _).
    destruct (initializeQAChain X options w) as [[[e d]|err] w1];
      cbn in Hw; subst w1; [|discriminate].
    intros _. cbn. unfold installRetrieval. destruct (debug _); reflexivity.
  - rewrite setChain_PLUS by exact Hv.
    destruct (initializeQAChain_frame X options w) as (v & logged & Hw & _).
    destruct (initializeQAChain X options w) as [[[e d]|err] w1];
      cbn in Hw; subst w1; [|discriminate].
    intros _. reflexivity.
Qed.

End SetChainMore.


Lemma setChain_replaces_one_pipeline_witness :
  getRetrievalChain (snd (setChain Demo.registry (CT LLM_CHAIN) noOptions Demo.afterVaultQA)) =
    Some Demo.oldRetrievalChain /\
  getChain (snd (setChain Demo.registry (CT VAULT_QA_CHAIN) noOptions Samples.indexed)) = None.
Proof.
  split.
  - apply (setChain_replaces_one_pipeline Demo.registry (CT LLM_CHAIN) noOptions
             Demo.afterVaultQA). discriminate.
  - apply (setChain_replaces_one_pipeline Demo.registry (CT VAULT_QA_CHAIN) noOptions
             Samples.indexed). reflexivity.
Defined.

Lemma setChain_LLM_needs_no_index_witness :
  fst (setChain Demo.registry (CT LLM_CHAIN) Samples.refresh Demo.ready) = Normal tt /\
  vectorStore (snd (setChain Demo.registry (CT LLM_CHAIN) Samples.refresh Demo.ready)) =
    (None, 0%nat).
Proof.
  destruct (setChain_LLM_needs_no_index Demo.registry Samples.refresh Demo.ready eq_refl)
    as (H1 & H2 & _).
  split; [exact H1 | exact H2].
Defined.

Lemma initializeQAChain_database_failure_witness :
  setChain Samples.brokenIndex (CT COPILOT_PLUS_CHAIN) Samples.refresh Demo.equipped =
    (Throw (newError databaseErrorMsg),
     afterIndexing (None, 0%nat)
       [ConsoleWarn [LStr "Copilot index is not loaded. Reinitializing..."]]
       Demo.equipped).
Proof.
  destruct (initializeQAChain_database_failure Samples.brokenIndex Samples.refresh
              Demo.equipped (EmbeddingsHandle 2) (None, 0%nat) eq_refl eq_refl eq_refl)
    as (_ & H & _).
  exact (proj2 (H eq_refl)).
Defined.

Lemma initializeQAChain_initializes_lazily_witness :
  initializeQAChain (withInitializeDB Samples.failingInit Demo.registry) Samples.refresh
    Samples.indexed =
  (Normal (EmbeddingsHandle 2, IndexHandle 5),
   with_vectorStore (Some (IndexHandle 5), 1%nat) Samples.indexed).
Proof.
  rewrite (initializeQAChain_initializes_lazily Demo.registry Samples.failingInit
             Samples.refresh Samples.indexed (IndexHandle 5) eq_refl).
  reflexivity.
Defined.

Lemma getChainRunner_after_setChain_witness :
  fst (getChainRunner
         (snd (setChain Demo.registry (CT COPILOT_PLUS_CHAIN) noOptions Demo.equipped))) =
    Normal CopilotPlusChainRunner.
Proof.
  rewrite (getChainRunner_after_setChain Demo.registry COPILOT_PLUS_CHAIN noOptions
             Demo.equipped eq_refl eq_refl).
  reflexivity.
Defined.

(** *** [runChain], [validateChainInitialization], [createChainWithNewModel] *)

Section RunChainMore.

Context {VS : Type}.
Variable X : Collaborators VS.

(** With an unusable chat model [runChain] shows the notice and raises the
    error of the private [validateChatModel] before anything else than its
    debug line: no pipeline is rebuilt, no runner is chosen, and both
    pipelines and the persisted chain type stay as they were. *)
Theorem runChain_unusable_model_raises
  (userMessage : ChatMessage) (options : RunOptions) (w : World VS) :
  validateChatModel X (chatModel w) = false ->
  fst (runChain X userMessage options w) = Throw (newError chatModelErrorMsg) /\
  untouched w (snd (runChain X userMessage options w)) /\
  exists logged,
    forallb isConsole logged = true /\
    effects (snd (runChain X userMessage options w)) =
      effects w ++ logged ++ [NoticeShown chatModelErrorMsg].
Proof.
  intros Hv.
  destruct (runChain_debug_line VS userMessage options w)
    as (wd & Hd & logged & Hwd & Hlogged).
  assert (Hrun : runChain X userMessage options w =
                 (Throw (newError chatModelErrorMsg),
                  emit (NoticeShown chatModelErrorMsg) wd)).
  { unfold runChain. generalize (setChain_call X). intros sc.
    unfold bind at 1. unfold bind at 1. rewrite Hd.
    unfold bind at 1. unfold bind at 1.
    unfold ChainManager_validateChatModel, bind, getChatModel, read, newNotice, do_emit,
      throw.
    subst wd. cbn. rewrite Hv. reflexivity. }
  rewrite Hrun. subst wd.
  split; [reflexivity|]. split; [repeat split|].
  exists logged. split; [exact Hlogged|]. cbn. now rewrite <- app_assoc.
Qed.

End RunChainMore.

Lemma runChain_unusable_model_raises_witness :
  fst (runChain Demo.registry Demo.hi Samples.debugRun Demo.fresh) =
    Throw (newError chatModelErrorMsg) /\
  getChain (snd (runChain Demo.registry Demo.hi Samples.debugRun Demo.fresh)) = None.
Proof.
  destruct (runChain_unusable_model_raises Demo.registry Demo.hi Samples.debugRun
              Demo.fresh eq_refl) as (H1 & (H2 & _) & _).
  split; [exact H1 | exact H2].
Defined.

Section RunChainDispatch.

Context {VS : Type}.
Variable X : Collaborators VS.

(** With a usable chat model, the runner [runChain] hands the turn to is
    the runner of the persisted chain type, whatever the options; when the
    persisted value is none of the three modes, [runChain] raises the
    unsupported-chain-type error.  For a model of the o1 family this holds
    when the template parser accepts the system prompt; when it does not,
    [runChain] raises the parser's error and no runner is chosen.  The
    persisted chain type is the same afterwards. *)
Theorem runChain_dispatches_on_persisted_type
  (userMessage : ChatMessage) (options : RunOptions) (w : World VS) :
  validateChatModel X (chatModel w) = true ->
  let dispatched :=
    match chainType w with
    | CT c => Normal (runnerOf c)
    | other => Throw (newError ("Unsupported chain type: " ++ templateString other)%string)
    end in
  (reasoningOnly (chatModel w) ->
   fst (runChain X userMessage options w) =
     match templateError (systemPrompt w) with
     | Some e => Throw e
     | None => dispatched
     end) /\
  (~ reasoningOnly (chatModel w) ->
   fst (runChain X userMessage options w) = dispatched) /\
  chainType (snd (runChain X userMessage options w)) = chainType w.
Proof.
  intros Hv dispatched.
  destruct (runChain_steps VS X userMessage options w Hv)
    as (w0 & _ & _ & E3 & _ & Hrun).
  assert (Hrunner : forall w1 : World VS,
            chainType w1 = chainType w ->
            fst (getChainRunner w1) = dispatched /\
            chainType (snd (getChainRunner w1)) = chainType w).
  { intros w1 H1. rewrite getChainRunner_reads. split; [|exact H1].
    unfold getChainRunner, bind, getChainType, read, dispatched. rewrite H1.
    destruct (chainType w) as [| | [| |] |]; reflexivity. }
  assert (Hcall : forall o, chainType (snd (setChain_call X (chainType w) o w0)) =
                            chainType w).
  { intros o. destruct (setChain_call_frame X (chainType w) o w0) as (_ & _ & H & _).
    rewrite H by (symmetry; exact E3). exact E3. }
  split; [|split].
  - intros Hreason. apply isO1_reasoningOnly in Hreason.
    rewrite Hrun, Hreason, orb_true_r.
    destruct (templateError (systemPrompt w)) as [e|]; [reflexivity|].
    apply Hrunner, Hcall.
  - intros Hnot.
    assert (Ho : isO1 (chatModel w) = false).
    { destruct (isO1 (chatModel w)) eqn:E; [|reflexivity].
      exfalso. apply Hnot. now apply isO1_reasoningOnly. }
    rewrite Hrun, Ho.
    destruct (orFalse (run_ignoreSystemMessage options) || false).
    + apply Hrunner, Hcall.
    + apply Hrunner, E3.
  - rewrite Hrun.
    destruct (orFalse (run_ignoreSystemMessage options) || isO1 (chatModel w)).
    + destruct (if isO1 (chatModel w) then templateError (systemPrompt w) else None)
        as [e|]; [exact E3|].
      apply Hrunner, Hcall.
    + apply Hrunner, E3.
Qed.

(** In the plain chat mode, with a usable chat model that carries a name,
    [validateChainInitialization] leaves a supported active chain: the one
    there was when it was supported (then nothing happens at all), a fresh
    one otherwise. *)
Theorem validateChainInitialization_repairs (w : World VS) :
  validateChatModel X (chatModel w) = true ->
  chainType w = CT LLM_CHAIN ->
  truthy (modelName (chatModel w)) || truthy (model (chatModel w)) = true ->
  (exists c, getChain (snd (validateChainInitialization X w)) = Some c /\
             isSupportedChain c = true) /\
  (forall c, getChain w = Some c -> isSupportedChain c = true ->
             validateChainInitialization X w = (Normal tt, w)).
Proof.
  intros Hv Hc Hnamed.
  assert (Hrebuilt : forall w1 : World VS,
            chatModel w1 = chatModel w ->
            exists c, getChain (snd (setChain_call X (CT LLM_CHAIN) noOptions w1)) = Some c /\
                      isSupportedChain c = true).
  { intros w1 H1. rewrite setChain_call_settles by (right; split; discriminate).
    cbn [snd]. rewrite setChain_LLM by (rewrite H1; exact Hv).
    eexists. split; [reflexivity|].
    unfold isSupportedChain, isLLMChain, plainPipeline. cbn [llm].
    rewrite H1, Hnamed. reflexivity. }
  split.
  - unfold validateChainInitialization.
    generalize Hrebuilt. generalize (setChain_call X). intros sc Hsc.
    unfold bind, read, getChainType, console_error, do_emit, not_awaited, ret.
    destruct (chain w) as [c|] eqn:Hchain.
    + destruct (isSupportedChain c) eqn:Hs; cbn.
      * exists c. split; [exact Hchain | exact Hs].
      * rewrite Hc. apply Hsc. reflexivity.
    + cbn. rewrite Hc. apply Hsc. reflexivity.
  - intros c Hchain Hs.
    unfold validateChainInitialization, bind, read. unfold getChain in Hchain.
    rewrite Hchain, Hs. reflexivity.
Qed.

(** [createChainWithNewModel] returns normally in every world: what the
    registry raises is caught, what [setChain] raises stays in its dropped
    promise. *)
Theorem createChainWithNewModel_never_raises (w : World VS) :
  fst (createChainWithNewModel X w) = Normal tt.
Proof.
  unfold createChainWithNewModel, resolveModel.
  generalize (setChain_call X). intros sc.
  unfold bind, getModelKey, getSettings, read.
  destruct (findCustomModel (modelKey w) (activeModels (settings w))) as [m|];
    unfold try_catch, bind, console_error, console_log, do_emit, ret,
      chatModelManager_setChatModel, getChainType, read, not_awaited; cbn.
  - destruct (setChatModel X m (chatModel w)) as [[u|e] h]; reflexivity.
  - destruct (setChatModel X (BUILTIN_CHAT_MODELS_0 X) (chatModel w)) as [[u|e] h];
      reflexivity.
Qed.



End RunChainDispatch.

Lemma runChain_dispatches_on_persisted_type_witness :
  fst (runChain Demo.registry Demo.hi Demo.plainRun Demo.reasoning) =
    Normal (runnerOf LLM_CHAIN) /\
  fst (runChain Demo.registry Demo.hi Demo.plainRun Samples.reasoningAgentic) =
    Normal (runnerOf COPILOT_PLUS_CHAIN) /\
  fst (runChain Demo.registry Demo.hi Demo.plainRun Samples.reasoningBraces) =
    Throw unclosedBrace /\
  fst (runChain Demo.registry Demo.hi Samples.ignoringRun Samples.chatting) =
    Normal (runnerOf LLM_CHAIN).
Proof.
  assert (Ho1 : reasoningOnly Demo.o1preview).
  { exists "-preview". left. reflexivity. }
  assert (Hgpt : ~ reasoningOnly (Demo.handleOf Demo.gpt4o)).
  { intros [rest [H | [[H | H] _]]]; discriminate. }
  split; [|split; [|split]].
  - exact (proj1 (runChain_dispatches_on_persisted_type Demo.registry Demo.hi
                    Demo.plainRun Demo.reasoning eq_refl) Ho1).
  - exact (proj1 (runChain_dispatches_on_persisted_type Demo.registry Demo.hi
                    Demo.plainRun Samples.reasoningAgentic eq_refl) Ho1).
  - exact (proj1 (runChain_dispatches_on_persisted_type Demo.registry Demo.hi
                    Demo.plainRun Samples.reasoningBraces eq_refl) Ho1).
  - exact (proj1 (proj2 (runChain_dispatches_on_persisted_type Demo.registry Demo.hi
                           Samples.ignoringRun Samples.chatting eq_refl)) Hgpt).
Defined.

Lemma validateChainInitialization_repairs_witness :
  exists c,
    getChain (snd (validateChainInitialization Demo.registry Demo.ready)) = Some c /\
    isSupportedChain c = true.
Proof.
  apply (validateChainInitialization_repairs Demo.registry Demo.ready);
    vm_compute; reflexivity.
Defined.


(** *** Loading transcripts one after the other *)

Lemma updateMemoryWithLoadedMessages_eq (VS : Type) (messages : list ChatMessage)
  (w : World VS) :
  updateMemoryWithLoadedMessages messages w =
  Some (Normal tt, with_memory (pairsOfTranscript messages) w).
Proof.
  unfold updateMemoryWithLoadedMessages, clearChatMemory.
  rewrite replayFrom_pairs by lia. reflexivity.
Qed.

Lemma pairsOfTranscript_length (messages : list ChatMessage) :
  2 * List.length (pairsOfTranscript messages) <= List.length messages.
Proof.
  induction messages as [|x|x y l IH] using list_pair_ind.
  - cbn. lia.
  - cbn. lia.
  - cbn [pairsOfTranscript]. destruct (sender x); cbn [List.length]; lia.
Qed.

(** Loading a transcript forgets the one loaded before: a second load ends
    as it would have without the first.  The memory holds at most one pair
    for every two entries of the transcript, and the pairs keep the other
    fields of the world as they were. *)
Theorem updateMemoryWithLoadedMessages_overrides
  (VS : Type) (first second : list ChatMessage) (w w1 : World VS) :
  updateMemoryWithLoadedMessages first w = Some (Normal tt, w1) ->
  updateMemoryWithLoadedMessages second w1 = updateMemoryWithLoadedMessages second w /\
  2 * List.length (memory w1) <= List.length first /\
  untouched w w1 /\ effects w1 = effects w.
Proof.
  rewrite !updateMemoryWithLoadedMessages_eq. intros [= <-].
  split; [reflexivity|]. split; [apply pairsOfTranscript_length|].
  repeat split.
Qed.

Lemma updateMemoryWithLoadedMessages_overrides_witness :
  updateMemoryWithLoadedMessages [Demo.hi]
    (with_memory [("hi", "hello")] Demo.ready) =
  updateMemoryWithLoadedMessages [Demo.hi] Demo.ready.
Proof.
  apply (updateMemoryWithLoadedMessages_overrides Demo.Store [Demo.hi; Demo.hello]
           [Demo.hi] Demo.ready (with_memory [("hi", "hello")] Demo.ready)).
  reflexivity.
Defined.

(** ** Further properties of [utils.ts] *)

(** *** Model keys and chain type names *)

(** The name [getModelNameFromKey] reads off a key is the name of the model
    either lookup finds for that key; for a key [name|provider] whose name
    holds no separator it is that name, and a key without separator is its
    own name. *)
Theorem getModelNameFromKey_is_name_of_match (modelKey : string) :
  (forall models m,
     findCustomModel modelKey models = Some m -> name m = getModelNameFromKey modelKey) /\
  (forall models m,
     utils_findCustomModel modelKey models = Normal m ->
     name m = getModelNameFromKey modelKey) /\
  (forall n p, barFree n = true -> getModelNameFromKey (n ++ "|" ++ p)%string = n) /\
  (barFree modelKey = true -> getModelNameFromKey modelKey = modelKey).
Proof.
  assert (Hmatch : forall m, key_matches modelKey m = true ->
                             name m = getModelNameFromKey modelKey).
  { intros m. unfold key_matches, getModelNameFromKey.
    destruct (split_bar modelKey) as [|h t]; cbn.
    - discriminate.
    - rewrite andb_true_iff, String.eqb_eq. tauto. }
  split; [|split; [|split]].
  - intros models m H. apply Hmatch. exact (proj2 (find_some _ _ H)).
  - intros models m. unfold utils_findCustomModel.
    destruct (find (key_matches modelKey) models) as [m'|] eqn:H; [|discriminate].
    intros [= <-]. apply Hmatch. exact (proj2 (find_some _ _ H)).
  - intros n p Hn. unfold getModelNameFromKey.
    now rewrite split_bar_composite.
  - intros Hs. unfold getModelNameFromKey. now rewrite split_bar_barFree.
Qed.

Lemma getModelNameFromKey_is_name_of_match_witness :
  name Demo.gpt4_a = getModelNameFromKey "gpt-4|openai" /\
  getModelNameFromKey ("gpt-4o" ++ "|" ++ "openai")%string = "gpt-4o".
Proof.
  destruct (getModelNameFromKey_is_name_of_match "gpt-4|openai") as (H1 & _ & H3 & _).
  split.
  - exact (H1 Demo.duplicateModels Demo.gpt4_a eq_refl).
  - exact (H3 "gpt-4o" "openai" eq_refl).
Defined.

(** [stringToChainType] reaches each of the three modes, from one string
    only, and raises for every string that names no mode an error that
    quotes it. *)
Theorem stringToChainType_one_to_one :
  (forall c, exists chain, stringToChainType chain = Normal c) /\
  (forall chain1 chain2 c,
     stringToChainType chain1 = Normal c -> stringToChainType chain2 = Normal c ->
     chain1 = chain2) /\
  (forall chain,
     (exists c, stringToChainType chain = Normal c) \/
     stringToChainType chain = Throw (newError ("Unknown chain type: " ++ chain)%string)).
Proof.
  assert (Hinv : forall chain c,
            stringToChainType chain = Normal c -> chain = templateString (CT c)).
  { intros chain c. unfold stringToChainType.
    destruct (String.eqb chain "llm_chain") eqn:E1.
    { apply String.eqb_eq in E1. subst chain. intros [= <-]. reflexivity. }
    destruct (String.eqb chain "vault_qa") eqn:E2.
    { apply String.eqb_eq in E2. subst chain. intros [= <-]. reflexivity. }
    destruct (String.eqb chain "copilot_plus") eqn:E3.
    { apply String.eqb_eq in E3. subst chain. intros [= <-]. reflexivity. }
    discriminate. }
  split; [|split].
  - intros c. exists (templateString (CT c)). destruct c; reflexivity.
  - intros chain1 chain2 c H1 H2.
    rewrite (Hinv _ _ H1), (Hinv _ _ H2). reflexivity.
  - intros chain. unfold stringToChainType.
    destruct (String.eqb chain "llm_chain"); [left; eauto|].
    destruct (String.eqb chain "vault_qa"); [left; eauto|].
    destruct (String.eqb chain "copilot_plus"); [left; eauto|].
    right. reflexivity.
Qed.

Lemma stringToChainType_one_to_one_witness :
  "vault_qa" = "vault_qa".
Proof.
  apply (proj1 (proj2 stringToChainType_one_to_one) "vault_qa" "vault_qa" VAULT_QA_CHAIN);
    reflexivity.
Defined.

(** *** The context window of a chat *)

Lemma findIndex_first (A : Type) (f : A -> bool) (before after : list A) (x : A) :
  Forall (fun y => f y = false) before -> f x = true ->
  findIndex f (before ++ x :: after) = Some (List.length before).
Proof.
  intros Hb Hx. induction Hb as [|y before Hy Hb IH]; cbn.
  - now rewrite Hx.
  - rewrite Hy, IH. reflexivity.
Qed.

Lemma findIndex_none (A : Type) (f : A -> bool) (l : list A) :
  Forall (fun y => f y = false) l -> findIndex f l = None.
Proof.
  intros H. induction H as [|y l Hy H IH]; cbn; [reflexivity|].
  rewrite Hy, IH. reflexivity.
Qed.

Lemma history_last_ai (chatHistory : list ChatMessage) :
  Forall (fun x => sender x = USER_SENDER) chatHistory \/
  exists front m trailing,
    chatHistory = front ++ m :: trailing /\ sender m = AI_SENDER /\
    Forall (fun x => sender x = USER_SENDER) trailing.
Proof.
  induction chatHistory as [|x l IH] using rev_ind; [left; constructor|].
  destruct (sender x) eqn:Hx.
  - destruct IH as [IH | (front & m & trailing & -> & Hm & Ht)].
    + left. apply Forall_app. split; [exact IH | repeat constructor; exact Hx].
    + right. exists front, m, (trailing ++ [x]).
      split; [now rewrite <- app_assoc|]. split; [exact Hm|].
      apply Forall_app. split; [exact Ht | repeat constructor; exact Hx].
  - right. exists l, x, []. repeat split; [exact Hx | constructor].
Qed.

Lemma Forall_user_not_ai (l : list ChatMessage) :
  Forall (fun x => sender x = USER_SENDER) l ->
  Forall (fun y => negb (isUserMessage y) = false) l.
Proof.
  apply Forall_impl. intros a Ha. unfold isUserMessage. now rewrite Ha.
Qed.

Lemma getChatContext_up_to_last_ai
  (front trailing : list ChatMessage) (m : ChatMessage) (contextSize : Z) :
  sender m = AI_SENDER ->
  Forall (fun x => sender x = USER_SENDER) trailing ->
  getChatContext (front ++ m :: trailing) contextSize =
    lastn (Z.to_nat contextSize) (front ++ [m]).
Proof.
  intros Hm Ht. unfold getChatContext.
  destruct (front ++ m :: trailing) as [|x0 l0] eqn:E.
  { exfalso. destruct front; discriminate. }
  rewrite <- E. clear E x0 l0.
  assert (Hrev : rev (front ++ m :: trailing) = rev trailing ++ m :: rev front).
  { rewrite rev_app_distr. cbn. now rewrite <- app_assoc. }
  rewrite Hrev.
  rewrite findIndex_first.
  2:{ apply Forall_user_not_ai. apply Forall_rev. exact Ht. }
  2:{ unfold isUserMessage. now rewrite Hm. }
  rewrite length_rev.
  assert (Hlen : List.length (front ++ m :: trailing) =
                 (List.length front + 1 + List.length trailing)%nat).
  { rewrite length_app. cbn. lia. }
  rewrite Hlen.
  set (lf := List.length front). set (lt := List.length trailing).
  replace (Z.of_nat (lf + 1 + lt) - 1 - Z.of_nat lt)%Z with (Z.of_nat lf) by lia.
  unfold slice, lastn.
  assert (Hfm : List.length (front ++ [m]) = (lf + 1)%nat).
  { rewrite length_app. cbn. reflexivity. }
  rewrite Hfm.
  replace (Z.to_nat (Z.of_nat lf + 1)) with (lf + 1)%nat by lia.
  set (k := Z.to_nat (Z.max 0 (Z.of_nat lf - contextSize + 1))).
  replace (front ++ m :: trailing) with ((front ++ [m]) ++ trailing)
    by (rewrite <- app_assoc; reflexivity).
  destruct (Z.leb contextSize 0) eqn:Hn;
    [apply Z.leb_le in Hn | apply Z.leb_gt in Hn].
  - assert (Hk : (lf + 1 <= k)%nat) by (subst k; lia).
    replace (lf + 1 - k)%nat with 0%nat by lia.
    replace (Z.to_nat contextSize) with 0%nat by lia.
    rewrite Nat.sub_0_r. cbn [firstn].
    symmetry. apply skipn_all2. rewrite Hfm. lia.
  - assert (Hk : k = (lf + 1 - Z.to_nat contextSize)%nat) by (subst k; lia).
    rewrite <- Hk.
    rewrite skipn_app.
    replace (k - List.length (front ++ [m]))%nat with 0%nat by (rewrite Hfm; lia).
    cbn [skipn].
    rewrite firstn_app.
    assert (Hs : List.length (skipn k (front ++ [m])) = (lf + 1 - k)%nat).
    { rewrite length_skipn, Hfm. reflexivity. }
    rewrite Hs, Nat.sub_diag. cbn [firstn]. rewrite app_nil_r.
    apply firstn_all2. rewrite Hs. lia.
Qed.


(** [getChatContext] returns the window that ends with the newest message
    of the assistant: when the history is [front], that message, and user
    messages only, the result is the last [contextSize] entries of [front]
    followed by that message (none when the size is not positive). *)
Theorem getChatContext_window
  (front trailing : list ChatMessage) (m : ChatMessage) (contextSize : Z) :
  sender m = AI_SENDER ->
  Forall (fun x => sender x = USER_SENDER) trailing ->
  getChatContext (front ++ m :: trailing) contextSize =
    lastn (Z.to_nat contextSize) (front ++ [m]).
Proof.
  intros Hm Ht. exact (getChatContext_up_to_last_ai front trailing m contextSize Hm Ht).
Qed.

Lemma getChatContext_window_witness :
  getChatContext [Samples.question; Samples.answer; Samples.followUp] 1 =
    lastn (Z.to_nat 1) ([Samples.question] ++ [Samples.answer]).
Proof.
  apply (getChatContext_window [Samples.question] [Samples.followUp] Samples.answer 1).
  - reflexivity.
  - repeat constructor.
Defined.

Lemma getChatContext_no_ai (chatHistory : list ChatMessage) (contextSize : Z) :
  Forall (fun x => sender x = USER_SENDER) chatHistory ->
  getChatContext chatHistory contextSize = [].
Proof.
  intros H. unfold getChatContext. destruct chatHistory as [|x l]; [reflexivity|].
  rewrite findIndex_none; [reflexivity|].
  apply Forall_user_not_ai. apply Forall_rev. exact H.
Qed.

(** For every history and every size, the context [getChatContext] returns
    has at most [contextSize] entries, is no longer than the history, and,
    when it is not empty, ends with a message of the assistant; a history of
    user messages only has an empty context. *)
Theorem getChatContext_bounded (chatHistory : list ChatMessage) (contextSize : Z) :
  (List.length (getChatContext chatHistory contextSize) <= Z.to_nat contextSize)%nat /\
  (List.length (getChatContext chatHistory contextSize) <= List.length chatHistory)%nat /\
  (getChatContext chatHistory contextSize = [] \/
   exists init m,
     getChatContext chatHistory contextSize = init ++ [m] /\ sender m = AI_SENDER) /\
  (Forall (fun x => sender x = USER_SENDER) chatHistory ->
   getChatContext chatHistory contextSize = []).
Proof.
  destruct (history_last_ai chatHistory) as [Hu | (front & m & trailing & -> & Hm & Ht)].
  - rewrite (getChatContext_no_ai _ _ Hu). cbn.
    split; [lia|]. split; [lia|]. split; [now left | reflexivity].
  - rewrite (getChatContext_up_to_last_ai front trailing m contextSize Hm Ht).
    unfold lastn.
    assert (Hfm : List.length (front ++ [m]) = (List.length front + 1)%nat).
    { rewrite length_app. reflexivity. }
    rewrite Hfm.
    split; [rewrite length_skipn, Hfm; lia|].
    split; [rewrite length_skipn, Hfm, length_app; cbn; lia|].
    split.
    + destruct (Z.to_nat contextSize) as [|k] eqn:Hk.
      * left. apply skipn_all2. rewrite Hfm. lia.
      * right. exists (skipn (List.length front + 1 - S k) front), m.
        split; [|exact Hm].
        rewrite skipn_app.
        replace (List.length front + 1 - S k - List.length front)%nat with 0%nat by lia.
        reflexivity.
    + intros Hall. exfalso.
      apply Forall_app in Hall. destruct Hall as [_ Hall].
      inversion Hall as [|? ? Hsm _]. congruence.
Qed.

Lemma getChatContext_bounded_witness :
  getChatContext [Samples.question; Samples.followUp] 5 = [].
Proof.
  apply (getChatContext_bounded [Samples.question; Samples.followUp] 5).
  repeat constructor.
Defined.

(** *** Exchanges of a memory history *)

Lemma orEmpty_id (s : string) : orEmpty s = s.
Proof. destruct s; reflexivity. Qed.

Lemma extractFrom_pairUp (fuel : nat) :
  forall (i : nat) (history : list BaseMessage) (acc : list (string * string)),
    List.length history <= i + 2 * fuel ->
    extractFrom fuel i history acc = Some (acc ++ pairUp (skipn i history)).
Proof.
  induction fuel as [|fuel IH]; intros i history acc Hfuel.
  - cbn [extractFrom]. assert (Hi : List.length history <= i) by lia.
    apply Nat.ltb_ge in Hi as Hlt. rewrite Hlt.
    rewrite skipn_all2 by exact Hi. cbn. now rewrite app_nil_r.
  - cbn [extractFrom]. destruct (Nat.ltb i (List.length history)) eqn:Hlt.
    + apply Nat.ltb_lt in Hlt.
      destruct (nth_error history i) as [u|] eqn:Hu.
      2:{ apply nth_error_None in Hu. lia. }
      rewrite (skipn_nth_error _ _ _ _ Hu).
      replace (i + 1) with (S i) by lia.
      replace (i + 2) with (S (S i)) by lia.
      rewrite IH by lia.
      destruct (nth_error history (S i)) as [a|] eqn:Ha.
      * rewrite (skipn_nth_error _ _ _ _ Ha). cbn. now rewrite <- app_assoc.
      * apply nth_error_None in Ha.
        assert (E1 : skipn (S i) history = []) by (apply skipn_all2; lia).
        assert (E2 : skipn (S (S i)) history = []) by (apply skipn_all2; lia).
        rewrite E1, E2. cbn. now rewrite app_nil_r.
    + apply Nat.ltb_ge in Hlt.
      rewrite skipn_all2 by exact Hlt. cbn. now rewrite app_nil_r.
Qed.

Lemma pairUp_length (history : list BaseMessage) :
  List.length (pairUp history) = Nat.div2 (S (List.length history)).
Proof.
  induction history as [|x|x y l IH] using list_pair_ind.
  - reflexivity.
  - reflexivity.
  - cbn [pairUp List.length]. rewrite IH. reflexivity.
Qed.

Lemma pairUp_interleave (pairs : list (string * string)) :
  pairUp (interleave pairs) = pairs.
Proof.
  induction pairs as [|[u a] pairs IH]; [reflexivity|].
  cbn. unfold interleave in IH. rewrite IH, !orEmpty_id. reflexivity.
Qed.

(** [extractChatHistory] returns for every history: it reads the history
    two entries at a time, a last entry without partner being paired with
    the empty string, so that a history of [n] entries gives [(n+1)/2]
    exchanges; from the history that holds a list of exchanges, input
    before output, it reads that list back. *)
Theorem extractChatHistory_reads_exchanges (memoryVariables : MemoryVariables) :
  extractChatHistory memoryVariables = Some (pairUp (history memoryVariables)) /\
  List.length (pairUp (history memoryVariables)) =
    Nat.div2 (S (List.length (history memoryVariables))) /\
  (forall pairs,
     extractChatHistory {| history := interleave pairs |} = Some pairs) /\
  (forall pairs last,
     extractChatHistory {| history := interleave pairs ++ [last] |} =
       Some (pairs ++ [(content last, EmptyString)])).
Proof.
  assert (H : forall mv, extractChatHistory mv = Some (pairUp (history mv))).
  { intros mv. unfold extractChatHistory. rewrite extractFrom_pairUp by lia.
    reflexivity. }
  split; [apply H|]. split; [apply pairUp_length|]. split.
  - intros pairs. rewrite H. cbn [history]. now rewrite pairUp_interleave.
  - intros pairs last. rewrite H. cbn [history]. f_equal.
    induction pairs as [|[u a] pairs IH]; cbn.
    + now rewrite orEmpty_id.
    + unfold interleave in IH. rewrite IH, !orEmpty_id. reflexivity.
Qed.

(** *** Titles of retrieved documents *)

Lemma existsb_eqb_In (x : string) (set : list string) :
  existsb (String.eqb x) set = true <-> In x set.
Proof.
  rewrite existsb_exists. split.
  - intros (y & Hy & E). apply String.eqb_eq in E. now subst y.
  - intros H. exists x. split; [exact H | apply String.eqb_refl].
Qed.

Lemma setAdd_spec (set : list string) (x : string) :
  (NoDup set -> NoDup (setAdd set x)) /\
  (forall t, In t (setAdd set x) <-> In t set \/ t = x).
Proof.
  unfold setAdd. destruct (existsb (String.eqb x) set) eqn:E.
  - apply existsb_eqb_In in E. split; [auto|].
    intros t. split; [auto|]. intros [H | ->]; assumption.
  - assert (Hx : ~ In x set).
    { intros H. apply existsb_eqb_In in H. congruence. }
    split.
    + intros Hnd. apply NoDup_app; [exact Hnd | repeat constructor; intros [] | ].
      intros a Ha [<- | []]. exact (Hx Ha).
    + intros t. rewrite in_app_iff. cbn. split.
      * intros [H | [<- | []]]; auto.
      * intros [H | ->]; auto.
Qed.

Lemma truthy_Some (t : string) : truthy (Some t) = true <-> t <> EmptyString.
Proof. destruct t; cbn; split; congruence. Qed.

(** [extractUniqueTitlesFromDocs] lists every title once: the result has no
    duplicates, and a string is in it exactly when it is the title, not
    empty, of one of the documents; documents without metadata or without
    title contribute nothing. *)
Theorem extractUniqueTitlesFromDocs_unique (docs : list Document) :
  NoDup (extractUniqueTitlesFromDocs docs) /\
  (forall t,
     In t (extractUniqueTitlesFromDocs docs) <->
     t <> EmptyString /\ exists doc, In doc docs /\ metadataTitle doc = Some t).
Proof.
  unfold extractUniqueTitlesFromDocs.
  set (step := fun (titlesSet : list string) (doc : Document) =>
                 if truthy (metadataTitle doc) then
                   match metadataTitle doc with
                   | Some t => setAdd titlesSet t
                   | None => titlesSet
                   end
                 else titlesSet).
  assert (H : forall docs acc,
            NoDup acc ->
            NoDup (fold_left step docs acc) /\
            (forall t,
               In t (fold_left step docs acc) <->
               In t acc \/
               (t <> EmptyString /\ exists doc, In doc docs /\ metadataTitle doc = Some t))).
  { clear docs. induction docs as [|doc docs IH]; intros acc Hacc; cbn [fold_left].
    - split; [exact Hacc|]. intros t. split; [auto|].
      intros [H | (_ & doc & [] & _)]. exact H.
    - assert (Hstep : NoDup (step acc doc) /\
                      (forall t, In t (step acc doc) <->
                                 In t acc \/ (t <> EmptyString /\ metadataTitle doc = Some t))).
      { unfold step. destruct (metadataTitle doc) as [t0|] eqn:Ht.
        - destruct (truthy (Some t0)) eqn:Htruthy.
          + apply truthy_Some in Htruthy.
            destruct (setAdd_spec acc t0) as [Hnd Hin].
            split; [auto|]. intros t. rewrite Hin. split.
            * intros [H | ->]; auto.
            * intros [H | (_ & [= ->])]; auto.
          + split; [exact Hacc|]. intros t. split; [auto|].
            intros [H | (Hne & [= ->])]; [exact H|].
            apply truthy_Some in Hne. congruence.
        - cbn. split; [exact Hacc|]. intros t. split; [auto|].
          intros [H | (_ & Hn)]; [exact H | discriminate]. }
      destruct Hstep as [Hnd Hin].
      destruct (IH (step acc doc) Hnd) as [IH1 IH2].
      split; [exact IH1|]. intros t. rewrite IH2, Hin. split.
      + intros [[H | (Hne & Ht)] | (Hne & d & Hd & Ht)]; auto.
        * right. split; [exact Hne|]. exists doc. split; [now left | exact Ht].
        * right. split; [exact Hne|]. exists d. split; [now right | exact Ht].
      + intros [H | (Hne & d & [<- | Hd] & Ht)]; auto.
        right. split; [exact Hne|]. exists d. auto. }
  destruct (H docs [] (NoDup_nil _)) as [H1 H2].
  split; [exact H1|]. intros t. rewrite H2. split.
  - intros [[] | H']. exact H'.
  - auto.
Qed.

(** *** Equality of embedding model names *)

(** [areEmbeddingModelsSame] is symmetric, holds of a name and itself when
    the name is not empty, and fails as soon as one of the two names is
    missing or empty. *)
Theorem areEmbeddingModelsSame_symmetric
  (NOMIC_EMBED_TEXT : string) (model1 model2 : option string) :
  areEmbeddingModelsSame NOMIC_EMBED_TEXT model1 model2 =
    areEmbeddingModelsSame NOMIC_EMBED_TEXT model2 model1 /\
  (truthy model1 = true -> areEmbeddingModelsSame NOMIC_EMBED_TEXT model1 model1 = true) /\
  (truthy model1 = false ->
   areEmbeddingModelsSame NOMIC_EMBED_TEXT model1 model2 = false /\
   areEmbeddingModelsSame NOMIC_EMBED_TEXT model2 model1 = false).
Proof.
  unfold areEmbeddingModelsSame. split; [|split].
  - destruct (truthy model1) eqn:H1, (truthy model2) eqn:H2; cbn; try reflexivity.
    destruct model1 as [a|], model2 as [b|]; try discriminate.
    rewrite (andb_comm (includes a NOMIC_EMBED_TEXT)).
    destruct (includes b NOMIC_EMBED_TEXT && includes a NOMIC_EMBED_TEXT);
      [reflexivity|].
    rewrite (orb_comm (String.eqb a "small" && String.eqb b "cohereai")).
    rewrite (andb_comm (String.eqb a "cohereai")), (andb_comm (String.eqb a "small")).
    destruct (String.eqb b "small" && String.eqb a "cohereai"
              || String.eqb b "cohereai" && String.eqb a "small"); [reflexivity|].
    apply String.eqb_sym.
  - intros H1. rewrite H1. cbn. destruct model1 as [a|]; [|discriminate].
    rewrite String.eqb_refl.
    destruct (includes a NOMIC_EMBED_TEXT && includes a NOMIC_EMBED_TEXT); [reflexivity|].
    destruct (String.eqb a "small" && String.eqb a "cohereai"
              || String.eqb a "cohereai" && String.eqb a "small"); reflexivity.
  - intros H1. rewrite H1. cbn. split; [reflexivity|].
    destruct (negb (truthy model2)); reflexivity.
Qed.

Lemma areEmbeddingModelsSame_symmetric_witness :
  areEmbeddingModelsSame "nomic-embed-text" (Some "small") (Some "small") = true /\
  areEmbeddingModelsSame "nomic-embed-text" (Some "") (Some "small") = false.
Proof.
  destruct (areEmbeddingModelsSame_symmetric "nomic-embed-text" (Some "small")
              (Some "small")) as (_ & H & _).
  destruct (areEmbeddingModelsSame_symmetric "nomic-embed-text" (Some "")
              (Some "small")) as (_ & _ & H').
  split; [exact (H eq_refl) | exact (proj1 (H' eq_refl))].
Defined.

Lemma extractUniqueTitlesFromDocs_unique_witness :
  In "Note A" (extractUniqueTitlesFromDocs Samples.docs).
Proof.
  apply (extractUniqueTitlesFromDocs_unique Samples.docs).
  split; [discriminate|].
  eexists. split; [left; reflexivity | reflexivity].
Defined.

(** *** Objects without some of their properties *)

Lemma getProperty_deleteProperty (V : Type) (obj : JsObject V) (key k : string) :
  getProperty (deleteProperty obj key) k =
  if String.eqb k key then None else getProperty obj k.
Proof.
  unfold deleteProperty.
  induction obj as [|[k0 v] obj IH]; cbn.
  - now destruct (String.eqb k key).
  - destruct (String.eqb k0 key) eqn:E0; cbn.
    + apply String.eqb_eq in E0. subst k0. rewrite IH.
      rewrite (String.eqb_sym key k). now destruct (String.eqb k key).
    + rewrite IH. destruct (String.eqb k0 k) eqn:E1; [|reflexivity].
      apply String.eqb_eq in E1. subst k0. now rewrite E0.
Qed.

(** In the object [omit] returns, a listed key has no value and every
    other key has the value it had; omitting nothing changes nothing, and
    omitting in two steps is omitting the keys of both at once. *)
Theorem omit_removes_listed_keys (V : Type) (obj : JsObject V) (keys : list string) :
  (forall k,
     getProperty (omit obj keys) k =
     if existsb (String.eqb k) keys then None else getProperty obj k) /\
  omit obj [] = obj /\
  (forall more, omit (omit obj keys) more = omit obj (keys ++ more)).
Proof.
  split; [|split].
  - intros k. unfold omit. revert obj.
    induction keys as [|key keys IH]; intros obj; cbn [fold_left existsb].
    + reflexivity.
    + rewrite IH, getProperty_deleteProperty.
      destruct (String.eqb k key); cbn; [|reflexivity].
      now destruct (existsb (String.eqb k) keys).
  - reflexivity.
  - intros more. unfold omit. now rewrite fold_left_app.
Qed.

(** *** Provider metadata *)

(** For a provider without entry in the table, [getProviderInfo] raises,
    whereas [getProviderLabel] returns the provider itself and the two
    other helpers return the empty string. *)
Theorem getProviderInfo_unknown_provider_raises
  (ProviderInfo : string -> option ProviderMetadata) (provider : string) :
  ProviderInfo provider = None ->
  (exists e, getProviderInfo ProviderInfo provider = Throw e) /\
  getProviderLabel ProviderInfo provider = provider /\
  getProviderHost ProviderInfo provider = EmptyString /\
  getProviderKeyManagementURL ProviderInfo provider = EmptyString.
Proof.
  intros H.
  unfold getProviderInfo, getProviderLabel, getProviderHost, getProviderKeyManagementURL.
  rewrite H. split; [eexists; reflexivity | repeat split].
Qed.

Lemma getProviderInfo_unknown_provider_raises_witness :
  (exists e, getProviderInfo Samples.providers "my-proxy" = Throw e) /\
  getProviderLabel Samples.providers "my-proxy" = "my-proxy".
Proof.
  destruct (getProviderInfo_unknown_provider_raises Samples.providers "my-proxy" eq_refl)
    as (H1 & H2 & _).
  split; [exact H1 | exact H2].
Defined.

(** The label of a provider is never empty unless the provider is: an
    entry without label falls back to the provider.  For a provider with an
    entry, [getProviderInfo] returns that entry with this label, and the
    host and key management address the two other helpers return. *)
Theorem getProviderLabel_falls_back
  (ProviderInfo : string -> option ProviderMetadata) (provider : string) :
  (provider <> EmptyString -> getProviderLabel ProviderInfo provider <> EmptyString) /\
  (forall info,
     ProviderInfo provider = Some info ->
     exists info',
       getProviderInfo ProviderInfo provider = Normal info' /\
       label info' = getProviderLabel ProviderInfo provider /\
       host info' = getProviderHost ProviderInfo provider /\
       keyManagementURL info' = getProviderKeyManagementURL ProviderInfo provider).
Proof.
  unfold getProviderInfo, getProviderLabel, getProviderHost, getProviderKeyManagementURL.
  split.
  - intros Hp. destruct (ProviderInfo provider) as [info|]; [|exact Hp].
    destruct (label info); [exact Hp | discriminate].
  - intros info ->. eexists. split; [reflexivity|].
    cbn. rewrite !orEmpty_id. repeat split.
Qed.

Lemma getProviderLabel_falls_back_witness :
  getProviderLabel Samples.providers "openai" <> EmptyString /\
  exists info',
    getProviderInfo Samples.providers "openai" = Normal info' /\
    label info' = getProviderLabel Samples.providers "openai" /\
    host info' = getProviderHost Samples.providers "openai" /\
    keyManagementURL info' = getProviderKeyManagementURL Samples.providers "openai".
Proof.
  destruct (getProviderLabel_falls_back Samples.providers "openai") as [H1 H2].
  split.
  - apply H1. discriminate.
  - exact (H2 _ eq_refl).
Defined.

(** ** The vault QA pipeline *)

Section VaultQA.

Context {VS : Type}.
Variable X : Collaborators VS.

(** A completed switch to the vault QA mode leaves a retrieval chain whose
    retriever is bound to the index and the embeddings API the
    index-readiness step returned, with a minimal similarity score of 0.01,
    at most [maxSourceChunks] documents and no salient terms, and whose
    system message is the system prompt of the settings. *)
Theorem setChain_VAULT_QA_builds_retriever
  (options : SetChainOptions) (w w1 : World VS) (e : EmbeddingsAPI) (d : Db) :
  validateChatModel X (chatModel w) = true ->
  initializeQAChain X options w = (Normal (e, d), w1) ->
  exists p,
    getRetrievalChain (snd (setChain X (CT VAULT_QA_CHAIN) options w)) = Some p /\
    hr_db (rc_retriever p) = d /\
    hr_embeddings (rc_retriever p) = e /\
    hr_options (rc_retriever p) =
      {| minSimilarityScore := (1 # 100)%Q;
         maxK := maxSourceChunks (settings w);
         salientTerms := [] |} /\
    rc_systemMessage p = systemPrompt w /\
    rc_debug p = debug (settings w) /\
    chainType (snd (setChain X (CT VAULT_QA_CHAIN) options w)) = CT VAULT_QA_CHAIN.
Proof.
  intros Hv Hinit. rewrite setChain_VAULT by exact Hv.
  destruct (initializeQAChain_frame X options w) as (v & logged & Hw & _).
  rewrite Hinit in *. cbn in Hw. subst w1.
  cbn. unfold installRetrieval.
  destruct (debug _) eqn:Hdebug; cbn in Hdebug; cbn; rewrite ?Hdebug;
    eexists; repeat split; cbn; exact Hdebug.
Qed.

(** The vault QA mode takes neither the prompt nor the abort controller of
    the options: [setChain] ends the same way, in the same world, whatever
    they are.  The prompt without system message that [runChain] rebuilds
    therefore has no effect in this mode. *)
Theorem setChain_VAULT_QA_ignores_prompt
  (options : SetChainOptions) (prompt : option ChatPromptTemplate)
  (abortController : option AbortController) (w : World VS) :
  setChain X (CT VAULT_QA_CHAIN)
    {| opt_prompt := prompt; opt_abortController := abortController;
       opt_refreshIndex := opt_refreshIndex options |} w =
  setChain X (CT VAULT_QA_CHAIN) options w.
Proof.
  destruct (validateChatModel X (chatModel w)) eqn:Hv.
  2:{ rewrite !setChain_unusable by exact Hv. reflexivity. }
  rewrite !setChain_VAULT by exact Hv.
  assert (Hinit : forall o1 o2,
            opt_refreshIndex o1 = opt_refreshIndex o2 ->
            initializeQAChain X o1 w = initializeQAChain X o2 w).
  { intros o1 o2 Ho. unfold initializeQAChain. rewrite Ho. reflexivity. }
  rewrite (Hinit {| opt_prompt := prompt; opt_abortController := abortController;
                    opt_refreshIndex := opt_refreshIndex options |} options eq_refl).
  reflexivity.
Qed.

End VaultQA.

Lemma setChain_VAULT_QA_builds_retriever_witness :
  exists p,
    getRetrievalChain
      (snd (setChain Demo.registry (CT VAULT_QA_CHAIN) noOptions Samples.indexed)) = Some p /\
    hr_db (rc_retriever p) = IndexHandle 5 /\
    hr_embeddings (rc_retriever p) = EmbeddingsHandle 2.
Proof.
  destruct (setChain_VAULT_QA_builds_retriever Demo.registry noOptions Samples.indexed
              Samples.indexed (EmbeddingsHandle 2) (IndexHandle 5))
    as (p & H1 & H2 & H3 & _); [vm_compute; reflexivity | vm_compute; reflexivity |].
  exists p. split; [exact H1|]. split; [exact H2 | exact H3].
Defined.

(** ** Notes under a path *)

Lemma strict_eq_true (a : string) (b : option string) :
  strict_eq a b = true <-> b = Some a.
Proof.
  destruct b as [b|]; cbn.
  - rewrite String.eqb_eq. split; congruence.
  - split; discriminate.
Qed.

Lemma scanLoop_spec (fuel : nat) :
  forall (parts : list string) (part : string) (i : nat),
    List.length parts - i <= fuel ->
    let r := scanLoop fuel parts part i in
    i <= r /\
    (r < List.length parts -> nth_error parts r = Some part) /\
    (forall j, i <= j < r -> nth_error parts j <> Some part).
Proof.
  induction fuel as [|fuel IH]; intros parts part i Hfuel; cbn [scanLoop].
  - cbn. split; [lia|]. split; [lia|]. intros j Hj. lia.
  - destruct (Nat.ltb i (List.length parts)) eqn:Hlt.
    + destruct (strict_eq part (nth_error parts i)) eqn:Heq.
      * apply strict_eq_true in Heq. cbn. split; [lia|]. split; [auto|].
        intros j Hj. lia.
      * apply Nat.ltb_lt in Hlt.
        destruct (IH parts part (S i)) as (H1 & H2 & H3); [lia|].
        cbn. split; [lia|]. split; [exact H2|].
        intros j Hj. destruct (Nat.eq_dec j i) as [-> | Hne].
        -- intros E. apply strict_eq_true in E. congruence.
        -- apply H3. lia.
    + cbn. apply Nat.ltb_ge in Hlt. split; [lia|]. split; [lia|]. intros j Hj. lia.
Qed.

Lemma scanFor_spec (parts : list string) (part : string) (i : nat) :
  i <= scanFor parts part i /\
  (scanFor parts part i < List.length parts ->
   nth_error parts (scanFor parts part i) = Some part) /\
  (forall j, i <= j < scanFor parts part i -> nth_error parts j <> Some part).
Proof. unfold scanFor. apply scanLoop_spec. lia. Qed.

Lemma scanFor_stays (parts : list string) (part : string) (i : nat) :
  nth_error parts i = Some part -> scanFor parts part i = i.
Proof.
  intros H. destruct (scanFor_spec parts part i) as (H1 & _ & H3).
  destruct (Nat.eq_dec (scanFor parts part i) i) as [E | Hne]; [exact E|].
  exfalso. apply (H3 i); [lia | exact H].
Qed.

Lemma Subseq_cons_inv (A : Type) (x : A) (l1 l2 : list A) :
  Subseq (x :: l1) l2 ->
  exists k, nth_error l2 k = Some x /\ Subseq l1 (skipn (S k) l2).
Proof.
  intros H. remember (x :: l1) as l eqn:El.
  induction H as [l | y l l2 H IH | y l l2 H IH]; [discriminate | |].
  - destruct (IH El) as (k & Hk & Hs). exists (S k). split; assumption.
  - injection El as -> ->. exists 0%nat. split; [reflexivity | exact H].
Qed.

Lemma Subseq_skipn_le (A : Type) (l fp : list A) (a b : nat) :
  a <= b -> Subseq l (skipn b fp) -> Subseq l (skipn a fp).
Proof.
  intros Hab. induction Hab as [|b Hab IH]; [auto|].
  intros H. apply IH. clear IH.
  destruct (nth_error fp b) as [x|] eqn:Hx.
  - rewrite (skipn_nth_error _ _ _ _ Hx). now apply Subseq_skip.
  - apply nth_error_None in Hx.
    rewrite skipn_all2 in H by lia. rewrite skipn_all2 by lia. exact H.
Qed.

Lemma containsInOrder_complete (pathParts : list string) :
  forall (filePathParts : list string) (i : nat),
    Subseq pathParts (skipn i filePathParts) ->
    containsInOrder pathParts filePathParts i = true.
Proof.
  induction pathParts as [|p rest IH]; intros fp i H; [reflexivity|].
  cbn [containsInOrder].
  destruct (Subseq_cons_inv _ _ _ _ H) as (k & Hk & Hs).
  rewrite nth_error_skipn in Hk. rewrite skipn_skipn in Hs.
  destruct (scanFor_spec fp p i) as (H1 & H2 & H3).
  set (r := scanFor fp p i) in *.
  assert (Hj : i + k < List.length fp).
  { apply nth_error_Some. congruence. }
  assert (Hr : r <= i + k).
  { destruct (Nat.le_gt_cases r (i + k)) as [Hle | Hgt]; [exact Hle|].
    exfalso. apply (H3 (i + k)); [lia | exact Hk]. }
  replace (Nat.leb (List.length fp) r) with false
    by (symmetry; apply Nat.leb_gt; lia).
  apply IH. apply (Subseq_skipn_le _ _ _ r (S k + i)); [lia | exact Hs].
Qed.

Lemma containsInOrder_sound (pathParts : list string) :
  forall (filePathParts : list string) (i : nat),
    containsInOrder pathParts filePathParts i = true ->
    Forall (fun part => In part filePathParts) pathParts.
Proof.
  induction pathParts as [|p rest IH]; intros fp i H; [constructor|].
  cbn [containsInOrder] in H.
  destruct (scanFor_spec fp p i) as (_ & H2 & _).
  set (r := scanFor fp p i) in *.
  destruct (Nat.leb (List.length fp) r) eqn:Hle; [discriminate|].
  apply Nat.leb_gt in Hle. constructor.
  - exact (nth_error_In _ _ (H2 Hle)).
  - exact (IH fp r H).
Qed.

(** [getNotesFromPath] returns all files for the root path.  For another
    path it returns, in the order of the vault, files of the vault only: a
    file is returned as soon as the parts of the normalized input path occur
    in that order, with or without parts in between, among the parts of the
    lower-cased path of the file; and in every file returned each part of the
    input path is one of the parts of the path of the file. *)
Theorem getNotesFromPath_selects
  (toLowerCase : string -> string) (files : list TFile) (path' : string) :
  getNotesFromPath toLowerCase files "/" = files /\
  (forall file, In file (getNotesFromPath toLowerCase files path') -> In file files) /\
  (path' <> "/" ->
   forall file,
     In file files ->
     Subseq (splitOn "/" (stripSlashes (toLowerCase path')))
            (splitOn "/" (toLowerCase (path file))) ->
     In file (getNotesFromPath toLowerCase files path')) /\
  (path' <> "/" ->
   forall file,
     In file (getNotesFromPath toLowerCase files path') ->
     Forall (fun part => In part (splitOn "/" (toLowerCase (path file))))
            (splitOn "/" (stripSlashes (toLowerCase path')))).
Proof.
  split; [reflexivity|].
  unfold getNotesFromPath.
  destruct (String.eqb path' "/") eqn:E.
  - apply String.eqb_eq in E. split; [auto|]. split; intros H; congruence.
  - split; [intros file H; apply filter_In in H; tauto|]. split.
    + intros _ file Hin Hsub. apply filter_In. split; [exact Hin|].
      apply containsInOrder_complete. exact Hsub.
    + intros _ file Hin. apply filter_In in Hin. destruct Hin as [_ Hin].
      exact (containsInOrder_sound _ _ _ Hin).
Qed.

Lemma getNotesFromPath_selects_witness :
  In Samples.daily
    (getNotesFromPath Samples.lowerAscii [Samples.inbox; Samples.daily] "/Notes/daily/").
Proof.
  apply (getNotesFromPath_selects Samples.lowerAscii [Samples.inbox; Samples.daily]
           "/Notes/daily/").
  - discriminate.
  - right. left. reflexivity.
  - vm_compute. apply Subseq_take. apply Subseq_skip. apply Subseq_take.
    apply Subseq_nil.
Defined.

(** The index of [getNotesFromPath] does not move past a part it has
    matched: a part of the input path repeated in a row is matched by one
    and the same part of the file path, so that repeating it changes
    nothing. *)
Theorem containsInOrder_repeated_part
  (pathPart : string) (pathParts filePathParts : list string) (filePathIndex : nat) :
  containsInOrder (pathPart :: pathPart :: pathParts) filePathParts filePathIndex =
  containsInOrder (pathPart :: pathParts) filePathParts filePathIndex.
Proof.
  cbn [containsInOrder].
  destruct (scanFor_spec filePathParts pathPart filePathIndex) as (_ & H2 & _).
  set (r := scanFor filePathParts pathPart filePathIndex) in *.
  destruct (Nat.leb (List.length filePathParts) r) eqn:Hle; [reflexivity|].
  apply Nat.leb_gt in Hle.
  rewrite (scanFor_stays filePathParts pathPart r (H2 Hle)).
  apply Nat.leb_gt in Hle. rewrite Hle. reflexivity.
Qed.

(** [getNoteFileFromTitle] returns the first file of the vault, in its
    order, whose basename is the title, also when several files carry it;
    it returns none exactly when no file does. *)
Theorem getNoteFileFromTitle_first_of_title (files : list TFile) (noteTitle : string) :
  (forall file,
     getNoteFileFromTitle files noteTitle = Some file ->
     exists before after,
       files = before ++ file :: after /\ basename file = noteTitle /\
       Forall (fun f => basename f <> noteTitle) before) /\
  (getNoteFileFromTitle files noteTitle = None <->
   Forall (fun f => basename f <> noteTitle) files).
Proof.
  unfold getNoteFileFromTitle. split.
  - intros file H.
    destruct (find_first_match _ _ _ _ H) as (before & after & -> & Hf & Hb).
    exists before, after. split; [reflexivity|].
    split; [now apply String.eqb_eq|].
    apply Forall_forall. intros f Hin.
    rewrite forallb_forall in Hb. specialize (Hb f Hin).
    apply negb_true_iff, String.eqb_neq in Hb. exact Hb.
  - rewrite find_none_iff, Forall_forall. split.
    + intros H f Hin. apply String.eqb_neq. exact (H f Hin).
    + intros H f Hin. apply String.eqb_neq. exact (H f Hin).
Qed.

Lemma getNoteFileFromTitle_first_of_title_witness :
  exists before after,
    [Samples.inbox; Samples.daily] = before ++ Samples.inbox :: after /\
    basename Samples.inbox = "monday" /\
    Forall (fun f => basename f <> "monday") before.
Proof.
  apply (getNoteFileFromTitle_first_of_title [Samples.inbox; Samples.daily] "monday").
  reflexivity.
Defined.

(** ** A turn that rebuilds nothing *)

(** When the chat model is usable, the active chain is a supported one,
    the model is not of the o1 family and the caller does not pass
    [ignoreSystemMessage], [runChain] reaches the runner without starting
    any call of [setChain]: the world is as it was, after the debug line
    (its title ends with a line feed) when the caller passes [debug]. *)
Theorem runChain_leaves_supported_chain
  (VS : Type) (X : Collaborators VS) (userMessage : ChatMessage)
  (options : RunOptions) (w : World VS) (c : LLMChain) :
  validateChatModel X (chatModel w) = true ->
  getChain w = Some c ->
  isSupportedChain c = true ->
  ~ reasoningOnly (chatModel w) ->
  run_ignoreSystemMessage options <> Some true ->
  (run_debug options = Some true ->
   snd (runChain X userMessage options w) =
     emit (ConsoleLog
             [LStr ("==== Step 0: Initial user message ====" ++
                    String (ascii_of_nat 10) EmptyString);
              LMessage userMessage]) w) /\
  (run_debug options <> Some true ->
   snd (runChain X userMessage options w) = w).
Proof.
  intros Hv Hchain Hs Hnot Hign. unfold getChain in Hchain.
  assert (Hplain : orFalse (run_ignoreSystemMessage options) || isO1 (chatModel w) = false).
  { apply orb_false_iff. split.
    - destruct (orFalse (run_ignoreSystemMessage options)) eqn:E; [|reflexivity].
      exfalso. apply Hign. now apply orFalse_true.
    - destruct (isO1 (chatModel w)) eqn:E; [|reflexivity].
      exfalso. apply Hnot. now apply isO1_reasoningOnly. }
  assert (Hrun : forall wd,
            (if orFalse (run_debug options)
             then console_log
                    [LStr ("==== Step 0: Initial user message ====" ++
                           String "010"%char EmptyString);
                     LMessage userMessage]
             else @ret VS unit tt) w = (Normal tt, wd) ->
            chatModel wd = chatModel w -> chain wd = Some c ->
            snd (runChain X userMessage options w) = wd).
  { intros wd Hd Hd1 Hd2.
    unfold runChain. generalize (setChain_call X). intros sc.
    unfold bind at 1. unfold bind at 1. rewrite Hd.
    unfold bind at 1. unfold bind at 1.
    unfold ChainManager_validateChatModel at 1. unfold bind at 1.
    unfold getChatModel at 1, read at 1. rewrite Hd1, Hv. cbn [negb ret].
    unfold bind at 1. unfold bind at 1.
    unfold validateChainInitialization, bind at 1, read at 1.
    rewrite Hd2, Hs. cbn [negb ret].
    unfold bind at 1. unfold getChatModel at 1, read at 1. rewrite Hd1, Hplain.
    unfold bind, ret. apply getChainRunner_reads. }
  split.
  - intros Hdebug. apply Hrun; [|reflexivity | exact Hchain].
    rewrite Hdebug. reflexivity.
  - intros Hdebug. apply Hrun; [|reflexivity | exact Hchain].
    assert (Hd : orFalse (run_debug options) = false).
    { destruct (orFalse (run_debug options)) eqn:E; [|reflexivity].
      exfalso. apply Hdebug. now apply orFalse_true. }
    rewrite Hd. reflexivity.
Qed.

Lemma runChain_leaves_supported_chain_witness :
  effects (snd (runChain Demo.registry Demo.hi Samples.loggingRun Samples.chatting)) =
    effects Samples.chatting ++
    [ConsoleLog
       [LStr ("==== Step 0: Initial user message ====" ++
              String (ascii_of_nat 10) EmptyString);
        LMessage Demo.hi]] /\
  snd (runChain Demo.registry Demo.hi Demo.plainRun Samples.chatting) = Samples.chatting.
Proof.
  assert (Hgpt : ~ reasoningOnly (Demo.handleOf Demo.gpt4o)).
  { intros [rest [H | [[H | H] _]]]; discriminate. }
  set (c := createNewLLMChain (Demo.handleOf Demo.gpt4o) TheMemory Demo.defaultPrompt None).
  assert (Hno : @None bool <> Some true) by discriminate.
  split.
  - destruct (runChain_leaves_supported_chain Demo.Store Demo.registry Demo.hi
                Samples.loggingRun Samples.chatting c eq_refl eq_refl eq_refl Hgpt Hno)
      as [H _].
    rewrite (H eq_refl). reflexivity.
  - destruct (runChain_leaves_supported_chain Demo.Store Demo.registry Demo.hi
                Demo.plainRun Samples.chatting c eq_refl eq_refl eq_refl Hgpt Hno)
      as [_ H].
    exact (H Hno).
Defined.
